(** * Trading-Bot: the signed request pipeline of [bot/client.py],
      the validator of [bot/validators.py], the router of [bot/orders.py]
      and [main] of [cli.py].

    The development is a shallow embedding.  Python objects become Rocq
    values, the mutable dictionaries handed to [_post_request] live in an
    explicit store, and the clock, the network and the logger are fields of
    a [world] threaded through a state-and-exception monad.  The libraries
    the code calls are modelled as far as the code depends on them:
    [hashlib], [hmac] and [urllib.parse] in full, [requests.post] with its
    header and timeout checks and its redirect loop over a network that
    answers each attempt.  The signer is specified against SHA-256, HMAC
    and the query encoding written from their standards. *)

From Stdlib Require Import ZArith List Ascii String Bool Lia.
From Stdlib.Strings Require Import Byte.
From Stdlib Require Import DecimalString SpecFloat.
From stdpp Require Import base decidable option list strings.

Import ListNotations.
Local Open Scope string_scope.
Local Open Scope Z_scope.
Local Open Scope list_scope.

Set Default Proof Using "Type".

(* ===================================================================== *)
(** * Bytes and text *)
(* ===================================================================== *)

(** A Python [str] is represented by the bytes of its UTF-8 encoding, held
    in a Rocq [string]; [str.encode()] is then the passage to a byte list. *)
Module Text.

Definition encode (s : string) : list byte := list_byte_of_string s.

Definition byte_val (b : byte) : Z := Z.of_N (Byte.to_N b).

Definition byte_of_val (z : Z) : byte :=
  match Byte.of_N (Z.to_N (z mod 256)) with
  | Some b => b
  | None => x00
  end.

Definition join (sep : string) (l : list string) : string :=
  String.concat sep l.

(** [str.replace(a, b)] for single characters. *)
Fixpoint replace_char (a b : ascii) (s : string) : string :=
  match s with
  | EmptyString => EmptyString
  | String c r =>
      String (if Ascii.eqb c a then b else c) (replace_char a b r)
  end.

(** [a in s] for a single character. *)
Fixpoint has_char (a : ascii) (s : string) : bool :=
  match s with
  | EmptyString => false
  | String c r => Ascii.eqb c a || has_char a r
  end.

(** [str(n)] for a Python [int]. *)
Definition str_int (n : Z) : string :=
  NilZero.string_of_int (Z.to_int n).

End Text.

(* ===================================================================== *)
(** * SHA-256 and HMAC, as [hashlib.sha256] and [hmac.new] compute them *)
(* ===================================================================== *)

Module SHA256.

Definition w32 : Z := 2 ^ 32.
Definition add32 (x y : Z) : Z := (x + y) mod w32.
Definition shl32 (x n : Z) : Z := Z.shiftl x n mod w32.
Definition rotr (n x : Z) : Z := Z.lor (Z.shiftr x n) (shl32 x (32 - n)).
Definition not32 (x : Z) : Z := Z.lxor x (w32 - 1).

Definition Ch (x y z : Z) : Z := Z.lxor (Z.land x y) (Z.land (not32 x) z).
Definition Maj (x y z : Z) : Z :=
  Z.lxor (Z.lxor (Z.land x y) (Z.land x z)) (Z.land y z).
Definition bsig0 (x : Z) : Z := Z.lxor (Z.lxor (rotr 2 x) (rotr 13 x)) (rotr 22 x).
Definition bsig1 (x : Z) : Z := Z.lxor (Z.lxor (rotr 6 x) (rotr 11 x)) (rotr 25 x).
Definition ssig0 (x : Z) : Z := Z.lxor (Z.lxor (rotr 7 x) (rotr 18 x)) (Z.shiftr x 3).
Definition ssig1 (x : Z) : Z := Z.lxor (Z.lxor (rotr 17 x) (rotr 19 x)) (Z.shiftr x 10).

(** The constants of FIPS 180-4, from their definition: the first 32 bits
    of the fractional parts of the square roots ([H0], first 8 primes) and
    cube roots ([K], first 64 primes).  [iroot k n] is the integer [k]-th
    root of [n], found bit by bit from the top. *)
Fixpoint iroot_bits (k n : Z) (bits : nat) (r : Z) : Z :=
  match bits with
  | O => r
  | S b =>
      let c := r + 2 ^ Z.of_nat b in
      iroot_bits k n b (if c ^ k <=? n then c else r)
  end.

Definition frac_root (k p : Z) : Z :=
  iroot_bits k (p * 2 ^ (32 * k)) 40 0 mod w32.

Definition is_prime (n : Z) : bool :=
  (1 <? n)
  && forallb (fun d => negb (n mod d =? 0) || (n <=? d))
             (List.map Z.of_nat (List.seq 2 18)).

Definition primes : list Z :=
  List.filter is_prime (List.map Z.of_nat (List.seq 2 310)).

Definition K : list Z :=
  Eval vm_compute in List.map (frac_root 3) primes.

Definition H0 : list Z :=
  Eval vm_compute in List.map (frac_root 2) (List.firstn 8 primes).

(** Big-endian packing of four bytes and unpacking of a word. *)
Definition word_of_bytes (b0 b1 b2 b3 : Z) : Z :=
  Z.lor (Z.lor (Z.shiftl b0 24) (Z.shiftl b1 16)) (Z.lor (Z.shiftl b2 8) b3).

Definition bytes_of_word (x : Z) : list byte :=
  [ Text.byte_of_val (Z.shiftr x 24); Text.byte_of_val (Z.shiftr x 16);
    Text.byte_of_val (Z.shiftr x 8); Text.byte_of_val x ].

Fixpoint words_of (bs : list Z) : list Z :=
  match bs with
  | b0 :: b1 :: b2 :: b3 :: r => word_of_bytes b0 b1 b2 b3 :: words_of r
  | _ => []
  end.

(** Padding: one 1 bit, zeros, then the bit length on 64 bits. *)
Definition pad (msg : list Z) : list Z :=
  let len := Z.of_nat (List.length msg) in
  let zeros := Z.to_nat ((55 - len) mod 64) in
  let bits := 8 * len in
  msg ++ [0x80] ++ List.repeat 0 zeros
      ++ List.map (fun i => Z.shiftr bits (8 * i) mod 256)
                  [7; 6; 5; 4; 3; 2; 1; 0].

(** The message schedule, newest word first. *)
Fixpoint schedule (fuel : nat) (rev_w : list Z) : list Z :=
  match fuel with
  | O => rev_w
  | S fuel' =>
      let g i := List.nth i rev_w 0 in
      let wt := add32 (add32 (ssig1 (g 1%nat)) (g 6%nat))
                      (add32 (ssig0 (g 14%nat)) (g 15%nat)) in
      schedule fuel' (wt :: rev_w)
  end.

Definition round (st : list Z) (kw : Z * Z) : list Z :=
  match st with
  | [a; b; c; d; e; f; g; h] =>
      let t1 := add32 (add32 (add32 h (bsig1 e)) (add32 (Ch e f g) (fst kw))) (snd kw) in
      let t2 := add32 (bsig0 a) (Maj a b c) in
      [add32 t1 t2; a; b; c; add32 d t1; e; f; g]
  | _ => st
  end.

Definition compress (h : list Z) (block : list Z) : list Z :=
  let ws := List.rev (schedule 48 (List.rev (words_of block))) in
  let st := List.fold_left round (List.combine K ws) h in
  List.map (fun p => add32 (fst p) (snd p)) (List.combine h st).

Fixpoint blocks (fuel : nat) (bs : list Z) : list (list Z) :=
  match fuel, bs with
  | S fuel', _ :: _ => List.firstn 64 bs :: blocks fuel' (List.skipn 64 bs)
  | _, _ => []
  end.

Definition digest_words (msg : list byte) : list Z :=
  let p := pad (List.map Text.byte_val msg) in
  List.fold_left compress (blocks (List.length p) p) H0.

(** [hashlib.sha256(msg).digest()] *)
Definition digest (msg : list byte) : list byte :=
  List.concat (List.map bytes_of_word (digest_words msg)).

Definition block_size : nat := 64.

End SHA256.

Module HMAC.

Definition xor_byte (c : Z) (b : byte) : byte :=
  Text.byte_of_val (Z.lxor (Text.byte_val b) c).

(** [hmac.new(key, msg, hashlib.sha256).digest()]: keys longer than a block
    are hashed first, then the key is zero-padded to the block size. *)
Definition digest (key msg : list byte) : list byte :=
  let key1 := if Nat.ltb SHA256.block_size (List.length key)
              then SHA256.digest key else key in
  let key2 := key1 ++ List.repeat x00 (SHA256.block_size - List.length key1) in
  let inner := SHA256.digest (List.map (xor_byte 0x36) key2 ++ msg) in
  SHA256.digest (List.map (xor_byte 0x5c) key2 ++ inner).

Definition hex_digit (n : Z) : ascii :=
  List.nth (Z.to_nat n)
    (list_ascii_of_string "0123456789abcdef") "0"%char.

Definition hex_of_byte (b : byte) : string :=
  let v := Text.byte_val b in
  String (hex_digit (v / 16)) (String (hex_digit (v mod 16)) EmptyString).

Definition hex (bs : list byte) : string :=
  String.concat "" (List.map hex_of_byte bs).

(** [hmac.new(key, msg, hashlib.sha256).hexdigest()] *)
Definition hexdigest (key msg : list byte) : string := hex (digest key msg).

End HMAC.

(* ===================================================================== *)
(** * Python values and dictionaries *)
(* ===================================================================== *)

(** A Python [float]: its binary64 value together with the text [str()]
    prints for it.  The shortest-round-trip printer is CPython's; the model
    carries its result next to the value instead of recomputing it. *)
Record pyfloat := PyFloat { fl_val : spec_float; fl_str : string }.

(** The numbers an order carries ([int] or [float]). *)
Inductive pynum :=
| NInt (n : Z)
| NFloat (x : pyfloat).

(** The values stored in request dictionaries. *)
Inductive pyval :=
| VStr (s : string)
| VInt (n : Z)
| VFloat (x : pyfloat)
| VNone.

Definition of_num (q : pynum) : pyval :=
  match q with
  | NInt n => VInt n
  | NFloat x => VFloat x
  end.

Definition of_opt_num (p : option pynum) : pyval :=
  match p with
  | Some q => of_num q
  | None => VNone
  end.

(** [str(v)] *)
Definition str (v : pyval) : string :=
  match v with
  | VStr s => s
  | VInt n => Text.str_int n
  | VFloat x => fl_str x
  | VNone => "None"
  end.

(** [q <= 0] and [q > 0], with IEEE-754 comparison on floats (both are
    false on NaN). *)
Definition num_le0 (q : pynum) : bool :=
  match q with
  | NInt n => n <=? 0
  | NFloat x => SFleb (fl_val x) (S754_zero false)
  end.

Definition num_gt0 (q : pynum) : bool :=
  match q with
  | NInt n => 0 <? n
  | NFloat x => SFltb (S754_zero false) (fl_val x)
  end.

Definition num_is_nan (q : pynum) : bool :=
  match q with
  | NFloat {| fl_val := S754_nan |} => true
  | _ => false
  end.

(** Python dictionaries keep insertion order: assigning to a key that is
    present keeps its position, a new key goes last. *)
Module Dict.

Abbreviation t := (list (string * pyval)).

Fixpoint get (k : string) (d : t) : option pyval :=
  match d with
  | [] => None
  | (k', v') :: r => if decide (k = k') then Some v' else get k r
  end.

(** [d[k] = v] *)
Fixpoint set (k : string) (v : pyval) (d : t) : t :=
  match d with
  | [] => [(k, v)]
  | (k', v') :: r =>
      if decide (k = k') then (k, v) :: r else (k', v') :: set k v r
  end.

(** [d] without the entry of [k] (used by specifications only). *)
Fixpoint remove (k : string) (d : t) : t :=
  match d with
  | [] => []
  | (k', v') :: r =>
      if decide (k = k') then remove k r else (k', v') :: remove k r
  end.

End Dict.

(* ===================================================================== *)
(** * [urllib.parse]: [quote], [quote_plus], [urlencode] *)
(* ===================================================================== *)

Module Urllib.

(** [_ALWAYS_SAFE]: ASCII letters, digits and [_.-~]. *)
Definition always_safe (b : byte) : bool :=
  let v := Text.byte_val b in
  ((65 <=? v) && (v <=? 90)) || ((97 <=? v) && (v <=? 122))
  || ((48 <=? v) && (v <=? 57))
  || (v =? 95) || (v =? 46) || (v =? 45) || (v =? 126).

Definition HEX_digit (n : Z) : ascii :=
  List.nth (Z.to_nat n)
    (list_ascii_of_string "0123456789ABCDEF") "0"%char.

(** ['%{:02X}'.format(b)] *)
Definition percent (b : byte) : string :=
  let v := Text.byte_val b in
  String "%" (String (HEX_digit (v / 16)) (String (HEX_digit (v mod 16)) EmptyString)).

Definition in_safe (safe : list byte) (b : byte) : bool :=
  existsb (Byte.eqb b) safe.

(** The per-byte map of [quote_from_bytes]. *)
Definition quoter (safe : list byte) (b : byte) : string :=
  if always_safe b || in_safe safe b
  then String (ascii_of_byte b) EmptyString
  else percent b.

(** [quote(string, safe)]: encode to UTF-8, then map every byte. *)
Definition quote (safe : list byte) (s : string) : string :=
  Text.join "" (List.map (quoter safe) (Text.encode s)).

Definition space : byte := x20.

(** [quote_plus(string)]: like [quote], but spaces become [+]. *)
Definition quote_plus (s : string) : string :=
  if Text.has_char " " s
  then Text.replace_char " " "+" (quote [space] s)
  else quote [] s.

(** [urlencode(query)] for a mapping of scalars: the loop appends
    [k + '=' + v] to a list, which is joined with ['&']. *)
Definition urlencode (query : Dict.t) : string :=
  let l :=
    List.fold_left
      (fun l kv =>
         let k := quote_plus (fst kv) in
         let v := quote_plus (str (snd kv)) in
         l ++ [String.append k (String.append "=" v)])
      query [] in
  Text.join "&" l.

End Urllib.

(* ===================================================================== *)
(** * [requests]: responses, failures, parameter encoding *)
(* ===================================================================== *)

(** Decoded JSON payloads. *)
#[warnings="-register-all"]
Inductive json :=
| JNull
| JBool (b : bool)
| JNum (literal : string)
| JStr (s : string)
| JArr (items : list json)
| JObj (fields : list (string * json)).

Module Requests.

(** A received response.  [json_body] is what [response.json()] yields:
    [None] when the body is not valid JSON.  [location] is the [Location]
    header, when the response carries one. *)
Record response := Response {
  status_code : Z;
  text : string;
  json_body : option json;
  location : option string
}.

(** The exceptions [requests.post] raises itself.  [Timeout] and
    [ConnectionError] come from an attempt on the network; the next three
    are the library's own: the redirect limit, the header check of
    [prepare_headers], and the plain [ValueError] urllib3's [Timeout]
    raises for a value that is not positive.  [OtherError] stands for any
    other exception that comes out of the call, with its class name and
    whether the class derives from [ValueError]. *)
Inductive failure :=
| Timeout
| ConnectionError
| TooManyRedirects
| InvalidHeader
| InvalidTimeout
| OtherError (class_name : string) (value_error : bool).

(** [isinstance(e, ValueError)] for these: [InvalidHeader] derives from
    [ValueError], the timeout refusal is one. *)
Definition failure_is_ValueError (f : failure) : bool :=
  match f with
  | InvalidHeader | InvalidTimeout => true
  | Timeout | ConnectionError | TooManyRedirects => false
  | OtherError _ value_error => value_error
  end.

(** A call of [requests.post]: what the client hands to the library. *)
Record request := Request {
  rq_method : string;
  rq_url : string;
  rq_headers : list (string * string);
  rq_params : Dict.t;        (* the mapping passed as [params=] *)
  rq_query : string;         (* its encoding on the wire *)
  rq_timeout : Z
}.

(** What one attempt on the network brings, and what a call brings as a
    whole. *)
Inductive net_result :=
| Responded (r : response)
| Failed (f : failure).

(** The query string [requests] derives from [params=]: entries whose
    value is [None] are dropped, the others go through [urlencode]. *)
Definition encode_params (params : Dict.t) : string :=
  Urllib.urlencode
    (List.filter
       (fun kv => match snd kv with VNone => false | _ => true end)
       params).

(** [400 <= status_code < 600], the test of [raise_for_status]. *)
Definition is_http_error (r : response) : bool :=
  ((400 <=? status_code r) && (status_code r <? 500))
  || ((500 <=? status_code r) && (status_code r <? 600)).

(** ** The header check

    [check_header_validity] matches the name against
    [^[^:\s][^:\r\n]*$] and the value against [^\S[^\r\n]*$|^$].  In a
    [str] pattern [\s] is Unicode white space; the texts here are UTF-8, so
    the test reads the encoded forms.  [$] also matches before a line feed
    that ends the text. *)
Definition LF : ascii := ascii_of_nat 10.
Definition CR : ascii := ascii_of_nat 13.

Definition in_range (lo hi : Z) (b : byte) : bool :=
  (lo <=? Text.byte_val b) && (Text.byte_val b <=? hi).

(** The text starts with a white-space character: U+0009..000D,
    U+001C..0020, U+0085, U+00A0, U+1680, U+2000..200A, U+2028, U+2029,
    U+202F, U+205F, U+3000. *)
Definition starts_with_space (s : string) : bool :=
  match Text.encode s with
  | b0 :: rest =>
      in_range 9 13 b0 || in_range 28 32 b0
      || match Text.byte_val b0, rest with
         | 194, b1 :: _ => in_range 133 133 b1 || in_range 160 160 b1
         | 225, b1 :: b2 :: _ => in_range 154 154 b1 && in_range 128 128 b2
         | 226, b1 :: b2 :: _ =>
             (in_range 128 128 b1
              && (in_range 128 138 b2 || in_range 168 169 b2
                  || in_range 175 175 b2))
             || (in_range 129 129 b1 && in_range 159 159 b2)
         | 227, b1 :: b2 :: _ => in_range 128 128 b1 && in_range 128 128 b2
         | _, _ => false
         end
  | [] => false
  end.

(** [[^...\r\n]*$] from some position on: none of the excluded
    characters up to the end, a final line feed apart. *)
Fixpoint runs_to_end (excluded : list ascii) (s : string) : bool :=
  match s with
  | EmptyString => true
  | String c r =>
      if Ascii.eqb c LF && String.eqb r EmptyString then true
      else negb (existsb (Ascii.eqb c) (CR :: LF :: excluded))
           && runs_to_end excluded r
  end.

Definition valid_header_name (s : string) : bool :=
  match s with
  | EmptyString => false
  | String c r =>
      negb (Ascii.eqb c ":") && negb (starts_with_space s)
      && runs_to_end [":"%char] r
  end.

Definition valid_header_value (s : string) : bool :=
  match s with
  | EmptyString => true
  | String c r =>
      (Ascii.eqb c LF && String.eqb r EmptyString)
      || (negb (starts_with_space s) && runs_to_end [] r)
  end.

Definition check_header_validity (header : string * string) : bool :=
  valid_header_name (fst header) && valid_header_value (snd header).

(** ** Redirects

    A response is followed when its status is one of [REDIRECT_STATI] and
    its [Location] header is present and not empty. *)
Definition REDIRECT_STATI : list Z := [301; 302; 303; 307; 308].

Definition redirect_target (r : response) : option string :=
  match location r with
  | Some (String c u) =>
      if existsb (Z.eqb (status_code r)) REDIRECT_STATI
      then Some (String c u) else None
  | _ => None
  end.

Definition DEFAULT_REDIRECT_LIMIT : nat := 30.

(** [resolve_redirects]: [r] is the answer to attempt number [made] of the
    call; [net k] is what attempt [k] brings (attempts count from 0 and the
    library derives each follow-up request from the answer before it).
    [left] redirects may still be followed.  The result is what the call
    brings and the number of attempts it made. *)
Fixpoint resolve_redirects (net : nat -> net_result) (left made : nat)
    (r : response) : net_result * nat :=
  match redirect_target r with
  | None => (Responded r, made)
  | Some _ =>
      match left with
      | O => (Failed TooManyRedirects, made)
      | S left' =>
          match net made with
          | Failed f => (Failed f, S made)
          | Responded r' => resolve_redirects net left' (S made) r'
          end
      end
  end.

(** [Session.request] as [requests.post] runs it, with the library's
    defaults ([allow_redirects=True], no retry): the headers are checked
    while the request is prepared, the timeout when the adapter is about to
    send, and only then does the first attempt go out.  The URL is taken to
    be one the library accepts. *)
Definition session_request (net : nat -> request -> net_result)
    (rq : request) : net_result * nat :=
  if negb (forallb check_header_validity (rq_headers rq)) then
    (Failed InvalidHeader, O)
  else if rq_timeout rq <=? 0 then
    (Failed InvalidTimeout, O)
  else
    match net O rq with
    | Failed f => (Failed f, 1%nat)
    | Responded r =>
        resolve_redirects (fun k => net k rq) DEFAULT_REDIRECT_LIMIT 1%nat r
    end.

End Requests.

Import Requests.

(** Exceptions the modelled code raises or lets through, one constructor
    for each place they come from: [ValueError msg] is the plain
    [ValueError] the validator and the router raise, [HTTPError r] is raised
    by [raise_for_status], [JSONDecodeError r] by [response.json()], and
    [RequestFailure f] is the exception [requests.post] raised. *)
Inductive exn :=
| ValueError (msg : string)
| HTTPError (r : response)
| RequestFailure (f : failure)
| JSONDecodeError (r : response).

(** [isinstance(e, ValueError)].  The constructors are not the classes:
    [requests]' [JSONDecodeError] derives from [ValueError], and so do two
    of the failures of [requests.post]; [HTTPError] does not. *)
Definition is_ValueError (e : exn) : bool :=
  match e with
  | ValueError _ => true
  | JSONDecodeError _ => true
  | RequestFailure f => failure_is_ValueError f
  | HTTPError _ => false
  end.

(* ===================================================================== *)
(** * The world: store, clock, network, log *)
(* ===================================================================== *)

Inductive log_line :=
| LogPost (path : string) (params : Dict.t)   (* info: POST path params=... *)
| LogResponse (status : Z) (body : string)    (* info: RESPONSE status body *)
| LogApiError (e : exn).                      (* error: API error: ... *)

(** References to dictionaries in the store. *)
Abbreviation loc := nat.

Record world := World {
  heap : list Dict.t;                        (* the dictionaries alive *)
  clock : nat -> Z;                          (* n-th reading of the clock, in ms *)
  reads : nat;                               (* readings taken so far *)
  network : nat -> nat -> request -> net_result;
                                             (* answer to attempt k of the n-th call *)
  sent : list request;                       (* calls of [requests.post] so far *)
  log : list log_line
}.

(** What the [n]-th call of [requests.post] brings when it is handed [rq],
    and the attempts it makes on the network. *)
Definition server (w : world) (n : nat) (rq : request) : net_result :=
  fst (session_request (network w n) rq).

Definition network_attempts (w : world) (n : nat) (rq : request) : nat :=
  snd (session_request (network w n) rq).

Arguments server : simpl never.
Arguments network_attempts : simpl never.

Definition with_heap (h : list Dict.t) (w : world) : world :=
  World h (clock w) (reads w) (network w) (sent w) (log w).
Definition with_reads (n : nat) (w : world) : world :=
  World (heap w) (clock w) n (network w) (sent w) (log w).
Definition with_sent (s : list request) (w : world) : world :=
  World (heap w) (clock w) (reads w) (network w) s (log w).
Definition with_log (l : list log_line) (w : world) : world :=
  World (heap w) (clock w) (reads w) (network w) (sent w) l.

(** Computations: a state monad over [world] whose results are a value or
    a raised exception; the state survives a raise. *)
Inductive outcome (A : Type) :=
| Return (a : A)
| Raise (e : exn).
Arguments Return {A} a.
Arguments Raise {A} e.

Definition M (A : Type) : Type := world -> outcome A * world.

Definition ret {A} (a : A) : M A := fun w => (Return a, w).
Definition raise {A} (e : exn) : M A := fun w => (Raise e, w).
Definition bind {A B} (m : M A) (k : A -> M B) : M B :=
  fun w =>
    match m w with
    | (Return a, w') => k a w'
    | (Raise e, w') => (Raise e, w')
    end.

(** [try: body except Exception as e: handler(e)] *)
Definition try_except {A} (body : M A) (handler : exn -> M A) : M A :=
  fun w =>
    match body w with
    | (Return a, w') => (Return a, w')
    | (Raise e, w') => handler e w'
    end.

Declare Scope py_scope.
Delimit Scope py_scope with py.
Notation "x <- m ;; k" := (bind m (fun x => k))
  (at level 100, m at next level, k at level 200, right associativity) : py_scope.
Notation "m ;;; k" := (bind m (fun _ => k))
  (at level 100, k at level 200, right associativity) : py_scope.
Local Open Scope py_scope.

(** ** Primitive effects *)

(** A reference the program holds is always live.  On a reference that is
    not, [deref] gives the empty mapping and [setitem] does nothing; the
    statements about a send therefore assume the reference is live. *)

Definition deref (l : loc) (w : world) : Dict.t := default [] (heap w !! l).

(** Evaluating a dictionary literal allocates a fresh dictionary. *)
Definition new_dict (d : Dict.t) : M loc :=
  fun w => (Return (length (heap w)), with_heap (heap w ++ [d]) w).

Definition read_dict (l : loc) : M Dict.t :=
  fun w => (Return (deref l w), w).

(** [d[k] = v] on the dictionary at [l], in place. *)
Definition setitem (l : loc) (k : string) (v : pyval) : M unit :=
  fun w => (Return tt, with_heap (<[l := Dict.set k v (deref l w)]> (heap w)) w).

(** [int(time.time() * 1000)] *)
Definition time_ms : M Z :=
  fun w => (Return (clock w (reads w)), with_reads (S (reads w)) w).

Definition logger_emit (line : log_line) : M unit :=
  fun w => (Return tt, with_log (log w ++ [line]) w).

(** [requests.post(url, headers=..., params=..., timeout=...)]: the call is
    recorded with what it was handed, and the library answers: it refuses
    the request, or goes to the network and follows redirects. *)
Definition requests_post (url : string) (headers : list (string * string))
    (params : loc) (timeout : Z) : M response :=
  fun w =>
    let d := deref params w in
    let rq := Request "POST" url headers d (encode_params d) timeout in
    let w' := with_sent (sent w ++ [rq]) w in
    match server w (length (sent w)) rq with
    | Responded r => (Return r, w')
    | Failed f => (Raise (RequestFailure f), w')
    end.

(** [response.raise_for_status()] *)
Definition raise_for_status (r : response) : M unit :=
  if is_http_error r then raise (HTTPError r) else ret tt.

(** [response.json()] *)
Definition response_json (r : response) : M json :=
  match json_body r with
  | Some j => ret j
  | None => raise (JSONDecodeError r)
  end.

(* ===================================================================== *)
(** * [bot/client.py]: [BinanceFuturesClient] *)
(* ===================================================================== *)

Record BinanceFuturesClient := Client {
  api_key : string;
  api_secret : string;
  request_timeout : Z
}.

Definition BASE_URL : string := "https://testnet.binancefuture.com".

(** [__init__(api_key, api_secret, timeout=10)] *)
Definition init_client (key secret : string) (timeout : option Z)
  : BinanceFuturesClient :=
  Client key secret (default 10 timeout).

Definition _sign_request (self : BinanceFuturesClient) (params : Dict.t) : string :=
  let query_string := Urllib.urlencode params in
  HMAC.hexdigest (Text.encode (api_secret self)) (Text.encode query_string).

Definition _get_request_headers (self : BinanceFuturesClient)
  : list (string * string) :=
  [("X-MBX-APIKEY", api_key self)].

Definition _post_request (self : BinanceFuturesClient)
    (endpoint_path : string) (request_params : loc) : M json :=
  let full_url := String.append BASE_URL endpoint_path in
  now <- time_ms ;;
  setitem request_params "timestamp" (VInt now) ;;;
  signed <- read_dict request_params ;;
  setitem request_params "signature" (VStr (_sign_request self signed)) ;;;
  logged <- read_dict request_params ;;
  logger_emit (LogPost endpoint_path logged) ;;;
  try_except
    (response <- requests_post full_url (_get_request_headers self)
                   request_params (request_timeout self) ;;
     logger_emit (LogResponse (status_code response) (text response)) ;;;
     raise_for_status response ;;;
     response_json response)
    (fun api_error =>
       logger_emit (LogApiError api_error) ;;;
       raise api_error).

Definition set_leverage (self : BinanceFuturesClient)
    (symbol : string) (leverage : Z) : M json :=
  params <- new_dict [("symbol", VStr symbol); ("leverage", VInt leverage)] ;;
  _post_request self "/fapi/v1/leverage" params.

Definition ensure_symbol_ready (self : BinanceFuturesClient)
    (symbol : string) : M unit :=
  try_except
    (set_leverage self symbol 10 ;;; ret tt)
    (fun _ => ret tt).

Definition place_market_order (self : BinanceFuturesClient)
    (symbol side : string) (quantity : pynum) : M json :=
  ensure_symbol_ready self symbol ;;;
  params <- new_dict [("symbol", VStr symbol); ("side", VStr side);
                      ("type", VStr "MARKET"); ("quantity", of_num quantity)] ;;
  _post_request self "/fapi/v1/order" params.

Definition place_limit_order (self : BinanceFuturesClient)
    (symbol side : string) (quantity : pynum) (price : option pynum) : M json :=
  ensure_symbol_ready self symbol ;;;
  params <- new_dict [("symbol", VStr symbol); ("side", VStr side);
                      ("type", VStr "LIMIT"); ("timeInForce", VStr "GTC");
                      ("quantity", of_num quantity);
                      ("price", of_opt_num price)] ;;
  _post_request self "/fapi/v1/order" params.

(* ===================================================================== *)
(** * [bot/validators.py] and [bot/orders.py] *)
(* ===================================================================== *)

(** The parsed arguments ([argparse.Namespace]) describing an order. *)
Record order_arguments := OrderArguments {
  symbol : string;
  side : string;
  type : string;
  quantity : pynum;
  price : option pynum
}.

Definition validate_common (args : order_arguments) : outcome unit :=
  if negb (bool_decide (side args ∈ ["BUY"; "SELL"])) then
    Raise (ValueError
      (String.append "Invalid order side '"
         (String.append (side args) "'. Must be 'BUY' or 'SELL'")))
  else if num_le0 (quantity args) then
    Raise (ValueError
      (String.append "Invalid quantity "
         (String.append (str (of_num (quantity args)))
            ". Quantity must be greater than 0")))
  else if bool_decide (type args = "LIMIT")
          && match price args with None => true | Some _ => false end then
    Raise (ValueError
      "Price is required for LIMIT orders. Provide --price argument")
  else Return tt.

Record OrderService := Service { binance_client : BinanceFuturesClient }.

Definition create (self : OrderService) (args : order_arguments) : M json :=
  if bool_decide (type args = "MARKET") then
    place_market_order (binance_client self)
      (symbol args) (side args) (quantity args)
  else if bool_decide (type args = "LIMIT") then
    place_limit_order (binance_client self)
      (symbol args) (side args) (quantity args) (price args)
  else
    raise (ValueError (String.append "Unsupported order type: " (type args))).

(* ===================================================================== *)
(** * Sample data used by the examples *)
(* ===================================================================== *)

Module Sample.

Definition f_0_01 : pyfloat := PyFloat (S754_finite false 5764607523034235 (-59)) "0.01".
Definition f_1_5 : pyfloat := PyFloat (S754_finite false 6755399441055744 (-52)) "1.5".
Definition f_0_0 : pyfloat := PyFloat (S754_zero false) "0.0".
Definition f_neg5 : pyfloat := PyFloat (S754_finite true 5629499534213120 (-50)) "-5.0".
Definition f_3000 : pyfloat := PyFloat (S754_finite false 6597069766656000 (-41)) "3000.0".
Definition f_nan : pyfloat := PyFloat S754_nan "nan".

Definition client : BinanceFuturesClient := init_client "KEY" "SECRET" None.
Definition service : OrderService := Service client.

Definition ok_response : response :=
  Response 200 "{}" (Some (JObj [])) None.
(** The body [{"code":-2019,"msg":"Margin is insufficient"}]; [dq] is the
    double quote. *)
Definition dq : string := String (ascii_of_nat 34) EmptyString.
Definition margin_body : string :=
  String.concat dq
    ["{"; "code"; ":-2019,"; "msg"; ":"; "Margin is insufficient"; "}"].
Definition margin_response : response :=
  Response 400 margin_body
    (Some (JObj [("code", JNum "-2019"); ("msg", JStr "Margin is insufficient")]))
    None.
Definition garbled_response : response :=
  Response 200 "<html>" None None.

Definition ticking (n : nat) : Z := 1700000000000 + Z.of_nat n.

(** A world whose network gives the same answer to every attempt. *)
Definition world_answering (h : list Dict.t) (a : net_result) : world :=
  World h ticking 0 (fun _ _ _ => a) [] [].

(** A world whose first call is answered by [a] and whose later ones
    succeed. *)
Definition world_first_failing (a : net_result) : world :=
  World [] ticking 0
    (fun n _ _ => match n with O => a | _ => Responded ok_response end) [] [].

(** A permanent redirect to another host, and a world whose network
    answers the first attempt of every call with it and the next with
    success. *)
Definition moved_response : response :=
  Response 308 "" None (Some "https://testnet.binancefuture.example/").

Definition world_redirecting (h : list Dict.t) : world :=
  World h ticking 0
    (fun _ k _ => match k with
                  | O => Responded moved_response
                  | _ => Responded ok_response
                  end) [] [].

End Sample.

(* ===================================================================== *)
(** * The standards: SHA-256, HMAC, the query encoding *)
(* ===================================================================== *)

(** The signer is specified against the standards themselves.  The three
    modules below are written from FIPS 180-4, RFC 2104 and the URL query
    rules, apart from the models of [hashlib], [hmac] and [urllib] above:
    the two sides share the representation of bytes and nothing else. *)
Module FIPS180.

(** Section 3.2: operations on 32-bit words. *)
Definition word (x : Z) : Z := x mod 4294967296.
Definition ROTR (n x : Z) : Z :=
  Z.lor (Z.shiftr x n) (word (Z.shiftl x (32 - n))).
Definition SHR (n x : Z) : Z := Z.shiftr x n.
Definition complement (x : Z) : Z := Z.lxor x 4294967295.

(** Section 4.1.2: the six logical functions of SHA-256. *)
Definition Ch (x y z : Z) : Z :=
  Z.lxor (Z.land x y) (Z.land (complement x) z).
Definition Maj (x y z : Z) : Z :=
  Z.lxor (Z.lxor (Z.land x y) (Z.land x z)) (Z.land y z).
Definition Sigma0 (x : Z) : Z :=
  Z.lxor (Z.lxor (ROTR 2 x) (ROTR 13 x)) (ROTR 22 x).
Definition Sigma1 (x : Z) : Z :=
  Z.lxor (Z.lxor (ROTR 6 x) (ROTR 11 x)) (ROTR 25 x).
Definition sigma0 (x : Z) : Z :=
  Z.lxor (Z.lxor (ROTR 7 x) (ROTR 18 x)) (SHR 3 x).
Definition sigma1 (x : Z) : Z :=
  Z.lxor (Z.lxor (ROTR 17 x) (ROTR 19 x)) (SHR 10 x).

(** Section 4.2.2: the sixty-four constant words, in decimal. *)
Definition K : list Z :=
  [ 1116352408; 1899447441; 3049323471; 3921009573; 961987163; 1508970993;
    2453635748; 2870763221; 3624381080; 310598401; 607225278; 1426881987;
    1925078388; 2162078206; 2614888103; 3248222580; 3835390401; 4022224774;
    264347078; 604807628; 770255983; 1249150122; 1555081692; 1996064986;
    2554220882; 2821834349; 2952996808; 3210313671; 3336571891; 3584528711;
    113926993; 338241895; 666307205; 773529912; 1294757372; 1396182291;
    1695183700; 1986661051; 2177026350; 2456956037; 2730485921; 2820302411;
    3259730800; 3345764771; 3516065817; 3600352804; 4094571909; 275423344;
    430227734; 506948616; 659060556; 883997877; 958139571; 1322822218;
    1537002063; 1747873779; 1955562222; 2024104815; 2227730452; 2361852424;
    2428436474; 2756734187; 3204031479; 3329325298 ].

(** The eight working variables, and section 5.3.3: the initial hash
    value. *)
Record registers := Registers {
  ra : Z; rb : Z; rc : Z; rd : Z; re : Z; rf : Z; rg : Z; rh : Z
}.

Definition H_initial : registers :=
  Registers 1779033703 3144134277 1013904242 2773480762
            1359893119 2600822924 528734635 1541459225.

(** The value of a byte string read big-endian, and the [n] low bytes of a
    number, most significant first. *)
Definition big_endian_value (bs : list Z) : Z :=
  List.fold_left (fun acc b => Z.lor (Z.shiftl acc 8) b) bs 0.

Definition big_endian_bytes (n : nat) (x : Z) : list Z :=
  List.map (fun i => (x / 256 ^ Z.of_nat i) mod 256) (List.rev (List.seq 0 n)).

(** Section 5.1.1: the padding of a message of [len] bytes.  With [l] its
    length in bits, the bit 1 is followed by the least [k >= 0] zero bits
    with [l + 1 + k = 448 (mod 512)] and by [l] on 64 bits; the bit 1 and
    the first seven zeros make the byte 128. *)
Definition padding (len : nat) : list Z :=
  let l := 8 * Z.of_nat len in
  let k := (448 - (l + 1)) mod 512 in
  [128] ++ List.repeat 0 (Z.to_nat ((k - 7) / 8)) ++ big_endian_bytes 8 l.

(** Section 5.2.1: the padded message is parsed into blocks of 512 bits,
    each block into sixteen words. *)
Fixpoint pieces {A} (size count : nat) (l : list A) : list (list A) :=
  match count with
  | O => []
  | S count' =>
      List.firstn size l :: pieces size count' (List.skipn size l)
  end.

Definition parse (size : nat) (l : list Z) : list (list Z) :=
  pieces size (List.length l / size)%nat l.

Definition block_words (block : list Z) : list Z :=
  List.map big_endian_value (parse 4 block).

(** Section 6.2.2, step 1: the message schedule.  [W t] is the block's
    word [t] for [t < 16], and
    [sigma1 (W (t-2)) + W (t-7) + sigma0 (W (t-15)) + W (t-16)] after. *)
Fixpoint extend (count : nat) (W : list Z) : list Z :=
  match count with
  | O => W
  | S count' =>
      let t := List.length W in
      let back i := List.nth (t - i) W 0 in
      extend count'
        (W ++ [word (sigma1 (back 2%nat) + back 7%nat
                     + sigma0 (back 15%nat) + back 16%nat)])
  end.

Definition schedule (M : list Z) : list Z := extend 48 M.

(** Step 3: one round. *)
Definition step (r : registers) (Kt Wt : Z) : registers :=
  let T1 := word (rh r + Sigma1 (re r) + Ch (re r) (rf r) (rg r) + Kt + Wt) in
  let T2 := word (Sigma0 (ra r) + Maj (ra r) (rb r) (rc r)) in
  Registers (word (T1 + T2)) (ra r) (rb r) (rc r)
            (word (rd r + T1)) (re r) (rf r) (rg r).

Definition rounds (W : list Z) (r : registers) : registers :=
  List.fold_left (fun r t => step r (List.nth t K 0) (List.nth t W 0))
                 (List.seq 0 64) r.

(** Step 4: the intermediate hash value. *)
Definition add_registers (x y : registers) : registers :=
  Registers (word (ra x + ra y)) (word (rb x + rb y))
            (word (rc x + rc y)) (word (rd x + rd y))
            (word (re x + re y)) (word (rf x + rf y))
            (word (rg x + rg y)) (word (rh x + rh y)).

Definition hash_block (H : registers) (block : list Z) : registers :=
  add_registers H (rounds (schedule (block_words block)) H).

Definition register_list (r : registers) : list Z :=
  [ra r; rb r; rc r; rd r; re r; rf r; rg r; rh r].

(** SHA-256 of a message: the final hash value, eight words big-endian. *)
Definition sha256 (msg : list byte) : list byte :=
  let m := List.map Text.byte_val msg in
  let H := List.fold_left hash_block
             (parse 64 (m ++ padding (List.length m))) H_initial in
  List.map Text.byte_of_val
    (List.concat (List.map (big_endian_bytes 4) (register_list H))).

End FIPS180.

Module RFC2104.

(** Section 2: [H(K XOR opad, H(K XOR ipad, text))], for a hash [H] with
    blocks of [B] bytes; a key longer than [B] is hashed first, and the key
    is filled with zeros up to [B]. *)
Definition ipad : Z := 54.
Definition opad : Z := 92.

Definition xor_with (c : Z) (bs : list byte) : list byte :=
  List.map (fun b => Text.byte_of_val (Z.lxor (Text.byte_val b) c)) bs.

Definition hmac (H : list byte -> list byte) (B : nat)
    (key text : list byte) : list byte :=
  let K0 := if Nat.ltb B (List.length key) then H key else key in
  let K1 := K0 ++ List.repeat x00 (B - List.length K0) in
  H (xor_with opad K1 ++ H (xor_with ipad K1 ++ text)).

Definition hmac_sha256 (key text : list byte) : list byte :=
  hmac FIPS180.sha256 64 key text.

End RFC2104.

Module QueryRules.

(** The characters that stand for themselves in a query: letters, digits
    and [-._~]. *)
Definition unreserved : string :=
  "ABCDEFGHIJKLMNOPQRSTUVWXYZabcdefghijklmnopqrstuvwxyz0123456789-._~".

Definition is_unreserved (c : ascii) : bool :=
  existsb (Ascii.eqb c) (list_ascii_of_string unreserved).

(** A hexadecimal digit, with letters counted from [first_letter]. *)
Definition hex_digit (first_letter : N) (d : N) : ascii :=
  ascii_of_N (if (d <? 10)%N then 48 + d else first_letter + (d - 10))%N.

(** [%XX]: the percent sign and the byte on two uppercase hexadecimal
    digits. *)
Definition percent_encode (c : ascii) : string :=
  String "%"
    (String (hex_digit 65 (N_of_ascii c / 16))
       (String (hex_digit 65 (N_of_ascii c mod 16)) EmptyString)).

Definition escape (c : ascii) : string :=
  if is_unreserved c then String c EmptyString
  else if Ascii.eqb c " " then "+"
  else percent_encode c.

Fixpoint escape_text (s : string) : string :=
  match s with
  | EmptyString => EmptyString
  | String c r => String.append (escape c) (escape_text r)
  end.

(** [key=value] pairs joined with [&]. *)
Definition query_string (P : Dict.t) : string :=
  String.concat "&"
    (List.map
       (fun kv =>
          String.append (escape_text (fst kv))
            (String.append "=" (escape_text (str (snd kv)))))
       P).

(** A byte string in lowercase hexadecimal. *)
Fixpoint lowercase_hex (bs : list byte) : string :=
  match bs with
  | [] => EmptyString
  | b :: r =>
      String (hex_digit 97 (Byte.to_N b / 16))
        (String (hex_digit 97 (Byte.to_N b mod 16)) (lowercase_hex r))
  end.

End QueryRules.

(* ===================================================================== *)
(** * Specification-side definitions *)
(* ===================================================================== *)

(** ** Validator *)

(** The three rejection conditions, as a proposition. *)
Definition invalid (args : order_arguments) : Prop :=
  side args ∉ ["BUY"; "SELL"]
  \/ num_le0 (quantity args) = true
  \/ (type args = "LIMIT" /\ price args = None).

Definition rejects (args : order_arguments) : Prop :=
  exists msg, validate_common args = Raise (ValueError msg).

(** The invariant of an order intent as the specification words it. *)
Definition intent_invariant (args : order_arguments) : Prop :=
  (is_Some (price args) <-> type args = "LIMIT")
  /\ num_gt0 (quantity args) = true
  /\ side args ∈ ["BUY"; "SELL"].

(** ** Signer *)

(** What [quote_plus] does to one byte: the characters [urllib] counts as
    always safe stand for themselves, a space is [+], the rest is what
    [urllib] formats as [%XX]. *)
Definition query_escape (b : byte) : string :=
  if Urllib.always_safe b then String (ascii_of_byte b) EmptyString
  else if Byte.eqb b Urllib.space then "+"
  else Urllib.percent b.

Definition query_escape_text (s : string) : string :=
  String.concat "" (List.map query_escape (Text.encode s)).

(** The text [urlencode] contributes for one entry. *)
Definition pair_text (kv : string * pyval) : string :=
  String.append (Urllib.quote_plus (fst kv))
    (String.append "=" (Urllib.quote_plus (str (snd kv)))).

(** The signer in the specification's words: the lowercase hexadecimal
    digest of HMAC-SHA256, keyed with the bytes of the secret, over the
    bytes of the query string of the mapping. *)
Definition Signer (secret : string) (P : Dict.t) : string :=
  QueryRules.lowercase_hex
    (RFC2104.hmac_sha256 (Text.encode secret)
       (Text.encode (QueryRules.query_string P))).

Definition lower_hex_char (c : ascii) : bool :=
  existsb (Ascii.eqb c) (list_ascii_of_string "0123456789abcdef").

Definition lower_hex (s : string) : Prop :=
  forallb lower_hex_char (list_ascii_of_string s) = true.

(** ** Transport *)

(** The mapping once the timestamp is in, and once the signature is in. *)
Definition stamped (now : Z) (P : Dict.t) : Dict.t :=
  Dict.set "timestamp" (VInt now) P.

Definition signed_params (self : BinanceFuturesClient) (now : Z) (P : Dict.t)
  : Dict.t :=
  Dict.set "signature" (VStr (_sign_request self (stamped now P))) (stamped now P).

(** The request a send of [P] at time [now] puts on the wire. *)
Definition wire_request (self : BinanceFuturesClient) (path : string)
    (now : Z) (P : Dict.t) : request :=
  Request "POST" (String.append BASE_URL path)
    [("X-MBX-APIKEY", api_key self)]
    (signed_params self now P)
    (encode_params (signed_params self now P))
    (request_timeout self).

(** What a send yields for each answer of the network. *)
Definition post_outcome (a : net_result) : outcome json :=
  match a with
  | Failed f => Raise (RequestFailure f)
  | Responded r =>
      if is_http_error r then Raise (HTTPError r)
      else match json_body r with
           | Some j => Return j
           | None => Raise (JSONDecodeError r)
           end
  end.

Definition post_log (path : string) (params : Dict.t) (a : net_result)
  : list log_line :=
  LogPost path params ::
  match a with
  | Failed f => [LogApiError (RequestFailure f)]
  | Responded r =>
      LogResponse (status_code r) (text r) ::
      match post_outcome a with
      | Raise e => [LogApiError e]
      | Return _ => []
      end
  end.

(** What the next call of [requests.post] brings, and the world after a
    send of the mapping [P] held at [l]. *)
Definition next_answer (w : world) (rq : request) : net_result :=
  server w (length (sent w)) rq.

Definition after_post (self : BinanceFuturesClient) (path : string)
    (l : loc) (P : Dict.t) (w : world) : world :=
  let rq := wire_request self path (clock w (reads w)) P in
  World (<[l := rq_params rq]> (heap w)) (clock w) (S (reads w)) (network w)
        (sent w ++ [rq])
        (log w ++ post_log path (rq_params rq) (next_answer w rq)).

Definition leverage_params (symbol : string) : Dict.t :=
  [("symbol", VStr symbol); ("leverage", VInt 10)].

Definition market_params (symbol side : string) (quantity : pynum) : Dict.t :=
  [("symbol", VStr symbol); ("side", VStr side);
   ("type", VStr "MARKET"); ("quantity", of_num quantity)].

Definition limit_params (symbol side : string) (quantity : pynum)
    (price : option pynum) : Dict.t :=
  [("symbol", VStr symbol); ("side", VStr side);
   ("type", VStr "LIMIT"); ("timeInForce", VStr "GTC");
   ("quantity", of_num quantity); ("price", of_opt_num price)].

(** Sending a freshly built mapping [P] (a dictionary literal): the
    request transmitted, the outcome, and the world afterwards. *)
Definition alloc (P : Dict.t) (w : world) : world :=
  with_heap (heap w ++ [P]) w.

Definition submit_request (self : BinanceFuturesClient) (path : string)
    (P : Dict.t) (w : world) : request :=
  wire_request self path (clock w (reads w)) P.

Definition submit_outcome (self : BinanceFuturesClient) (path : string)
    (P : Dict.t) (w : world) : outcome json :=
  post_outcome (next_answer w (submit_request self path P w)).

Definition after_submit (self : BinanceFuturesClient) (path : string)
    (P : Dict.t) (w : world) : world :=
  after_post self path (length (heap w)) P (alloc P w).

(** The world once the bootstrap for [symbol] has run. *)
Definition after_bootstrap (self : BinanceFuturesClient) (symbol : string)
    (w : world) : world :=
  after_submit self "/fapi/v1/leverage" (leverage_params symbol) w.

(** The round trip of a transmitted request: its text on the wire is the
    signing encoder's text for the transmitted mapping, and signing the
    transmitted mapping without its [signature] entry gives the transmitted
    signature back. *)
Definition round_trips (self : BinanceFuturesClient) (rq : request) : Prop :=
  rq_query rq = Urllib.urlencode (rq_params rq)
  /\ Dict.get "signature" (rq_params rq)
     = Some (VStr (_sign_request self (Dict.remove "signature" (rq_params rq)))).

(** No value of the mapping is [None]. *)
Definition no_None (P : Dict.t) : Prop :=
  Forall (fun kv => snd kv <> VNone) P.

(* ===================================================================== *)
(** * [cli.py]: [main] *)
(* ===================================================================== *)

(** What [main] writes for the user: its [print] calls and the one line
    it hands to its own logger. *)
Inductive cli_event :=
| PrintRequest (args : order_arguments)   (* the order request, dumped *)
| PrintResponse (j : json)                (* the API response, dumped *)
| PrintSuccess                            (* SUCCESS: Order placed successfully *)
| LogException (e : exn)                  (* logger.exception(...) *)
| PrintFailed (e : exn).                  (* FAILED: error *)

(** What [parse_command_line_arguments] brings: the namespace, or the
    [SystemExit] argparse leaves through when it refuses the arguments
    (status 2, after printing the usage) or has printed the help (status
    0). *)
Inductive parse_outcome :=
| Parsed (parsed_arguments : order_arguments)
| ParserExit (status : Z).

(** The argument of a [SystemExit]: a status, or a message. *)
Inductive exit_value :=
| ExitStatus (status : Z)
| ExitMessage (msg : string).

(** How a run of [main] ends: it returns, an exception escapes it, or it
    leaves through [SystemExit]. *)
Inductive main_outcome :=
| MainReturned
| MainRaised (e : exn)
| MainSystemExit (v : exit_value).

(** Truth value of [os.getenv(...)]: unset and empty are both false. *)
Definition truthy (v : option string) : bool :=
  match v with
  | Some (String _ _) => true
  | _ => false
  end.

(** [main], from what [parse_command_line_arguments] brings and the two
    environment variables it reads.  The events are [main]'s own output;
    what argparse prints before it exits is not part of them. *)
Definition main (parsed : parse_outcome)
    (env_api_key env_api_secret : option string) (w : world)
  : main_outcome * list cli_event * world :=
  match parsed with
  | ParserExit status => (MainSystemExit (ExitStatus status), [], w)
  | Parsed parsed_arguments =>
      match validate_common parsed_arguments with
      | Raise e => (MainRaised e, [], w)
      | Return _ =>
          if negb (truthy env_api_key) || negb (truthy env_api_secret) then
            (MainSystemExit
               (ExitMessage
                  "ERROR: Set BINANCE_API_KEY and BINANCE_API_SECRET environment variables"),
             [], w)
          else
            let binance_client :=
              init_client (default "" env_api_key) (default "" env_api_secret)
                None in
            let order_service := Service binance_client in
            match create order_service parsed_arguments w with
            | (Return api_response, w') =>
                (MainReturned,
                 [PrintRequest parsed_arguments; PrintResponse api_response;
                  PrintSuccess], w')
            | (Raise error, w') =>
                (MainReturned,
                 [PrintRequest parsed_arguments; LogException error;
                  PrintFailed error], w')
            end
      end
  end.

(* ===================================================================== *)
(** * Reading a query string back *)
(* ===================================================================== *)

(** The inverse the remote side applies to a received query: split at [&],
    cut each item at its first [=], undo the escaping. *)
Definition hex_value (c : ascii) : option N :=
  let n := N_of_ascii c in
  if ((48 <=? n) && (n <=? 57))%N then Some (n - 48)%N
  else if ((65 <=? n) && (n <=? 70))%N then Some (n - 55)%N
  else if ((97 <=? n) && (n <=? 102))%N then Some (n - 87)%N
  else None.

Fixpoint unquote_plus (s : string) : string :=
  match s with
  | EmptyString => EmptyString
  | String c s' =>
      if Ascii.eqb c "+" then String " " (unquote_plus s')
      else if Ascii.eqb c "%" then
        match s' with
        | String h (String l r) =>
            match hex_value h, hex_value l with
            | Some a, Some b => String (ascii_of_N (16 * a + b)) (unquote_plus r)
            | _, _ => String c (unquote_plus s')
            end
        | _ => String c (unquote_plus s')
        end
      else String c (unquote_plus s')
  end.

(** [s.split(sep)] for a single character. *)
Fixpoint split_char (sep : ascii) (s : string) : list string :=
  match s with
  | EmptyString => [EmptyString]
  | String c r =>
      if Ascii.eqb c sep then EmptyString :: split_char sep r
      else match split_char sep r with
           | x :: xs => String c x :: xs
           | [] => [String c EmptyString]
           end
  end.

(** [s.partition(sep)] without the separator. *)
Fixpoint cut_at (sep : ascii) (s : string) : string * string :=
  match s with
  | EmptyString => (EmptyString, EmptyString)
  | String c r =>
      if Ascii.eqb c sep then (EmptyString, r)
      else (String c (fst (cut_at sep r)), snd (cut_at sep r))
  end.

Definition read_query (qs : string) : list (string * string) :=
  match qs with
  | EmptyString => []
  | _ =>
      List.map
        (fun item =>
           (unquote_plus (fst (cut_at "=" item)),
            unquote_plus (snd (cut_at "=" item))))
        (split_char "&" qs)
  end.

(** The keys of a mapping with the text [str()] prints for each value. *)
Definition printed (P : Dict.t) : list (string * string) :=
  List.map (fun kv => (fst kv, str (snd kv))) P.

(** Every character is one [quote_plus] leaves alone. *)
Definition all_safe (s : string) : Prop :=
  forallb (fun c => Urllib.always_safe (byte_of_ascii c))
          (list_ascii_of_string s) = true.

(* ===================================================================== *)
(** * Facts about the transport *)
(* ===================================================================== *)

Section Transport.

Variable self : BinanceFuturesClient.



Lemma deref_lookup (l : loc) (P : Dict.t) (w : world) :
  heap w !! l = Some P -> deref l w = P.
Proof. unfold deref. intros ->. reflexivity. Qed.

(** One send, in full: the outcome and the world it leaves. *)
Lemma post_request_run (path : string) (l : loc) (P : Dict.t) (w : world) :
  heap w !! l = Some P ->
  _post_request self path l w
  = (post_outcome (next_answer w (wire_request self path (clock w (reads w)) P)),
     after_post self path l P w).
Proof.
  intros HP.
  assert (Hl : (l < length (heap w))%nat) by (eapply lookup_lt_Some; eauto).
  unfold _post_request, after_post, next_answer, bind, time_ms, setitem,
    read_dict, logger_emit, try_except, requests_post, deref; simpl.
  rewrite HP; simpl.
  repeat (rewrite list_lookup_insert_eq
            by (rewrite ?length_insert; exact Hl); simpl).
  rewrite list_insert_insert_eq.
  fold (stamped (clock w (reads w)) P).
  fold (signed_params self (clock w (reads w)) P).
  unfold wire_request, _get_request_headers.
  set (rq := Request _ _ _ _ _ _).
  match goal with
  | |- context [server ?w' ?n rq] =>
      change (server w' n rq) with (server w (length (sent w)) rq)
  end.
  destruct (server w (length (sent w)) rq) as [r | f] eqn:Ha; simpl.
  - unfold raise_for_status, response_json, raise, ret, with_log, with_sent,
      with_heap, with_reads, post_log, post_outcome; simpl.
    destruct (is_http_error r) eqn:He; simpl.
    + rewrite <- !app_assoc. reflexivity.
    + destruct (json_body r) as [j |] eqn:Hj; simpl;
        rewrite <- !app_assoc; reflexivity.
  - unfold raise, with_log, with_sent, with_heap, with_reads, post_log; simpl.
    rewrite <- !app_assoc. reflexivity.
Qed.

Lemma lookup_alloc (P : Dict.t) (w : world) :
  heap (alloc P w) !! length (heap w) = Some P.
Proof.
  unfold alloc; simpl. rewrite lookup_app_r by lia.
  rewrite Nat.sub_diag. reflexivity.
Qed.

(** Building a mapping and sending it. *)
Lemma submit_run (path : string) (P : Dict.t) (w : world) :
  (params <- new_dict P ;; _post_request self path params) w
  = (submit_outcome self path P w, after_submit self path P w).
Proof.
  unfold bind, new_dict. fold (alloc P w).
  rewrite (post_request_run path _ P (alloc P w) (lookup_alloc P w)).
  reflexivity.
Qed.

Lemma after_submit_sent (path : string) (P : Dict.t) (w : world) :
  sent (after_submit self path P w) = sent w ++ [submit_request self path P w].
Proof. reflexivity. Qed.

Lemma after_submit_heap (path : string) (P : Dict.t) (w : world) :
  heap (after_submit self path P w)
  = heap w ++ [signed_params self (clock w (reads w)) P].
Proof.
  unfold after_submit, after_post, alloc; simpl.
  rewrite insert_app_r_alt by lia. rewrite Nat.sub_diag. reflexivity.
Qed.

Lemma set_leverage_run (symbol : string) (w : world) :
  set_leverage self symbol 10 w
  = (submit_outcome self "/fapi/v1/leverage" (leverage_params symbol) w,
     after_bootstrap self symbol w).
Proof. unfold set_leverage. apply submit_run. Qed.

(** The bootstrap returns normally whatever the send did. *)
Lemma ensure_symbol_ready_run (symbol : string) (w : world) :
  ensure_symbol_ready self symbol w = (Return tt, after_bootstrap self symbol w).
Proof.
  unfold ensure_symbol_ready, try_except, bind.
  rewrite set_leverage_run.
  destruct (submit_outcome _ _ _ _); reflexivity.
Qed.

Lemma place_market_order_run (sym sd : string) (q : pynum) (w : world) :
  place_market_order self sym sd q w
  = (submit_outcome self "/fapi/v1/order" (market_params sym sd q)
       (after_bootstrap self sym w),
     after_submit self "/fapi/v1/order" (market_params sym sd q)
       (after_bootstrap self sym w)).
Proof.
  unfold place_market_order, bind at 1.
  rewrite ensure_symbol_ready_run. apply submit_run.
Qed.









Lemma place_limit_order_run (sym sd : string) (q : pynum) (p : option pynum)
    (w : world) :
  place_limit_order self sym sd q p w
  = (submit_outcome self "/fapi/v1/order" (limit_params sym sd q p)
       (after_bootstrap self sym w),
     after_submit self "/fapi/v1/order" (limit_params sym sd q p)
       (after_bootstrap self sym w)).
Proof.
  unfold place_limit_order, bind at 1.
  rewrite ensure_symbol_ready_run. apply submit_run.
Qed.

End Transport.

(* ===================================================================== *)
(** * Facts about text, digests and the query encoding *)
(* ===================================================================== *)

Section TextFacts.

Lemma append_cons (c : ascii) (s t : string) :
  String.append (String c s) t = String c (String.append s t).
Proof. reflexivity. Qed.

Lemma append_nil_r (s : string) : String.append s "" = s.
Proof.
  induction s as [| c s IH]; [reflexivity |].
  by rewrite append_cons, IH.
Qed.

Lemma append_assoc (a b c : string) :
  String.append (String.append a b) c = String.append a (String.append b c).
Proof.
  induction a as [| x a IH]; [reflexivity |].
  rewrite !append_cons; simpl; by rewrite IH.
Qed.

Lemma length_append (a b : string) :
  String.length (String.append a b) = (String.length a + String.length b)%nat.
Proof.
  induction a as [| x a IH]; [reflexivity |].
  rewrite !append_cons; simpl; by rewrite IH.
Qed.

Lemma chars_append (a b : string) :
  list_ascii_of_string (String.append a b)
  = list_ascii_of_string a ++ list_ascii_of_string b.
Proof.
  induction a as [| x a IH]; [reflexivity |].
  rewrite !append_cons; simpl; by rewrite IH.
Qed.

Lemma concat_nosep_cons (x : string) (xs : list string) :
  String.concat "" (x :: xs) = String.append x (String.concat "" xs).
Proof.
  destruct xs as [| y ys]; [| reflexivity].
  symmetry. apply append_nil_r.
Qed.

(** Joining after appending one more item to a non-empty list. *)
Lemma concat_snoc (sep x y : string) (l : list string) :
  String.concat sep ((x :: l) ++ [y])
  = String.append (String.concat sep (x :: l)) (String.append sep y).
Proof.
  revert x. induction l as [| z l IH]; intros x.
  - reflexivity.
  - change (String.concat sep ((x :: z :: l) ++ [y]))
      with (String.append x (String.append sep (String.concat sep ((z :: l) ++ [y])))).
    rewrite IH.
    change (String.concat sep (x :: z :: l))
      with (String.append x (String.append sep (String.concat sep (z :: l)))).
    by rewrite !append_assoc.
Qed.

Lemma replace_char_append (a b : ascii) (s t : string) :
  Text.replace_char a b (String.append s t)
  = String.append (Text.replace_char a b s) (Text.replace_char a b t).
Proof.
  induction s as [| c s IH]; [reflexivity |].
  rewrite !append_cons; simpl; by rewrite IH.
Qed.

Lemma encode_cons (c : ascii) (s : string) :
  Text.encode (String c s) = byte_of_ascii c :: Text.encode s.
Proof. reflexivity. Qed.

End TextFacts.

Section DigestFacts.

Lemma round_length (st : list Z) (kw : Z * Z) :
  length (SHA256.round st kw) = length st.
Proof.
  destruct st as [| a [| b [| c [| d [| e [| f [| g [| h [| i r]]]]]]]]];
    reflexivity.
Qed.

Lemma rounds_length (kws : list (Z * Z)) (st : list Z) :
  length (List.fold_left SHA256.round kws st) = length st.
Proof.
  revert st. induction kws as [| kw kws IH]; intros st; simpl.
  - reflexivity.
  - rewrite IH. apply round_length.
Qed.

Lemma compress_length (h block : list Z) :
  length (SHA256.compress h block) = length h.
Proof.
  unfold SHA256.compress.
  rewrite length_map, length_combine, rounds_length. lia.
Qed.

Lemma digest_words_length (msg : list byte) :
  length (SHA256.digest_words msg) = 8%nat.
Proof.
  unfold SHA256.digest_words.
  generalize (SHA256.blocks
    (length (SHA256.pad (List.map Text.byte_val msg)))
    (SHA256.pad (List.map Text.byte_val msg))).
  intros bs.
  assert (H : forall h, length (List.fold_left SHA256.compress bs h) = length h).
  { induction bs as [| b bs IH]; intros h; simpl; [reflexivity |].
    rewrite IH. apply compress_length. }
  rewrite H. reflexivity.
Qed.

(** A SHA-256 digest has 32 bytes. *)
Lemma sha256_digest_length (msg : list byte) :
  length (SHA256.digest msg) = 32%nat.
Proof.
  unfold SHA256.digest.
  pose proof (digest_words_length msg) as H.
  destruct (SHA256.digest_words msg)
    as [| a [| b [| c [| d [| e [| f [| g [| h [| i r]]]]]]]]];
    simpl in H; try discriminate.
  reflexivity.
Qed.

Lemma hmac_digest_length (key msg : list byte) :
  length (HMAC.digest key msg) = 32%nat.
Proof. unfold HMAC.digest. apply sha256_digest_length. Qed.

Lemma hex_cons (b : byte) (bs : list byte) :
  HMAC.hex (b :: bs) = String.append (HMAC.hex_of_byte b) (HMAC.hex bs).
Proof. unfold HMAC.hex. simpl List.map. apply concat_nosep_cons. Qed.

Lemma hex_length (bs : list byte) :
  String.length (HMAC.hex bs) = (2 * length bs)%nat.
Proof.
  induction bs as [| b bs IH]; [reflexivity |].
  rewrite hex_cons, length_append, IH. simpl. lia.
Qed.

Lemma hex_of_byte_lower (b : byte) : lower_hex (HMAC.hex_of_byte b).
Proof. destruct b; reflexivity. Qed.

Lemma hex_lower (bs : list byte) : lower_hex (HMAC.hex bs).
Proof.
  unfold lower_hex. induction bs as [| b bs IH]; [reflexivity |].
  rewrite hex_cons, chars_append, forallb_app, IH.
  rewrite (hex_of_byte_lower b). reflexivity.
Qed.

End DigestFacts.

Section DictFacts.

Lemma get_set_eq (k : string) (v : pyval) (d : Dict.t) :
  Dict.get k (Dict.set k v d) = Some v.
Proof.
  induction d as [| [k' v'] d IH]; simpl.
  - by rewrite decide_True.
  - destruct (decide (k = k')) as [-> | Hne]; simpl.
    + by rewrite decide_True.
    + by rewrite decide_False.
Qed.

Lemma get_set_ne (k k' : string) (v : pyval) (d : Dict.t) :
  k' <> k -> Dict.get k' (Dict.set k v d) = Dict.get k' d.
Proof.
  intros Hne. induction d as [| [k0 v0] d IH]; simpl.
  - by rewrite decide_False.
  - destruct (decide (k = k0)) as [-> | Hk]; simpl.
    + by rewrite !decide_False.
    + destruct (decide (k' = k0)); [reflexivity | exact IH].
Qed.

(** Assigning to an absent key appends the entry. *)
Lemma set_absent (k : string) (v : pyval) (d : Dict.t) :
  Dict.get k d = None -> Dict.set k v d = d ++ [(k, v)].
Proof.
  induction d as [| [k' v'] d IH]; simpl; [reflexivity |].
  destruct (decide (k = k')); [discriminate |].
  intros H. by rewrite IH.
Qed.

Lemma remove_snoc (k : string) (v : pyval) (d : Dict.t) :
  Dict.get k d = None -> Dict.remove k (d ++ [(k, v)]) = d.
Proof.
  induction d as [| [k' v'] d IH]; simpl.
  - by rewrite decide_True.
  - destruct (decide (k = k')); [discriminate |].
    intros H. by rewrite IH.
Qed.

Lemma set_not_nil (k : string) (v : pyval) (d : Dict.t) : Dict.set k v d <> [].
Proof. destruct d as [| [k' v'] d]; simpl; [| destruct (decide _)]; discriminate. Qed.

Lemma no_None_set (k : string) (v : pyval) (d : Dict.t) :
  v <> VNone -> no_None d -> no_None (Dict.set k v d).
Proof.
  intros Hv. unfold no_None.
  induction d as [| [k' v'] d IH]; simpl; intros Hd.
  - by constructor.
  - inversion Hd as [| ? ? H1 H2]; subst.
    destruct (decide (k = k')); constructor; auto.
Qed.

Lemma encode_params_no_None (d : Dict.t) :
  no_None d -> encode_params d = Urllib.urlencode d.
Proof.
  unfold encode_params, no_None. intros H. f_equal.
  induction H as [| [k v] d Hv Hd IH]; simpl; [reflexivity |].
  simpl in Hv. destruct v; first [by rewrite IH | by destruct Hv].
Qed.

End DictFacts.

Section QueryFacts.

Lemma quoter_space_replace (b : byte) :
  Text.replace_char " " "+" (Urllib.quoter [Urllib.space] b) = query_escape b.
Proof. destruct b; reflexivity. Qed.

Lemma quoter_nospace (b : byte) :
  b <> Urllib.space -> Urllib.quoter [] b = query_escape b.
Proof. intros H. destruct b; try reflexivity. by destruct H. Qed.

Lemma no_space_bytes (s : string) :
  Text.has_char " " s = false ->
  Forall (fun b => b <> Urllib.space) (Text.encode s).
Proof.
  induction s as [| c s IH]; simpl; intros H; [constructor |].
  apply orb_false_iff in H as [Hc Hs].
  rewrite encode_cons. constructor; [| by apply IH].
  intros Hb. apply Ascii.eqb_neq in Hc. apply Hc.
  rewrite <- (ascii_of_byte_of_ascii c), Hb. reflexivity.
Qed.

(** [quote_plus] escapes byte by byte under the URL query rules. *)
Lemma quote_plus_escape (s : string) :
  Urllib.quote_plus s = query_escape_text s.
Proof.
  unfold Urllib.quote_plus, Urllib.quote, query_escape_text, Text.join.
  destruct (Text.has_char " " s) eqn:Hsp.
  - clear Hsp. induction (Text.encode s) as [| b bs IH]; [reflexivity |].
    simpl List.map. rewrite !concat_nosep_cons, replace_char_append, IH.
    by rewrite quoter_space_replace.
  - apply no_space_bytes in Hsp.
    induction Hsp as [| b bs Hb Hbs IH]; [reflexivity |].
    simpl List.map. rewrite !concat_nosep_cons, IH.
    by rewrite quoter_nospace.
Qed.

Lemma urlencode_loop (P : Dict.t) (acc : list string) :
  List.fold_left
    (fun l kv =>
       l ++ [String.append (Urllib.quote_plus (fst kv))
               (String.append "=" (Urllib.quote_plus (str (snd kv))))])
    P acc
  = acc ++ List.map pair_text P.
Proof.
  revert acc. induction P as [| kv P IH]; intros acc; simpl.
  - by rewrite app_nil_r.
  - rewrite IH, <- app_assoc. reflexivity.
Qed.

Lemma urlencode_concat (P : Dict.t) :
  Urllib.urlencode P = String.concat "&" (List.map pair_text P).
Proof. unfold Urllib.urlencode, Text.join. by rewrite urlencode_loop. Qed.

(** One more entry at the end of a non-empty mapping. *)
Lemma urlencode_snoc (P : Dict.t) (kv : string * pyval) :
  P <> [] ->
  Urllib.urlencode (P ++ [kv])
  = String.append (Urllib.urlencode P) (String.append "&" (pair_text kv)).
Proof.
  intros HP. rewrite !urlencode_concat, map_app. simpl List.map.
  destruct P as [| kv0 P]; [by destruct HP |].
  apply concat_snoc.
Qed.

Lemma lower_hex_char_safe (c : ascii) :
  lower_hex_char c = true ->
  Urllib.always_safe (byte_of_ascii c) = true /\ Ascii.eqb c " " = false.
Proof.
  destruct c as [[] [] [] [] [] [] [] []]; intros H;
    try discriminate H; split; reflexivity.
Qed.

(** A lowercase hexadecimal text is its own query encoding. *)
Lemma quote_plus_lower_hex (s : string) : lower_hex s -> Urllib.quote_plus s = s.
Proof.
  unfold lower_hex. intros H.
  assert (Hsp : Text.has_char " " s = false
                /\ String.concat "" (List.map (Urllib.quoter []) (Text.encode s)) = s).
  { induction s as [| c s IH]; [split; reflexivity |].
    simpl in H. apply andb_true_iff in H as [Hc Hs].
    destruct (IH Hs) as [IH1 IH2].
    destruct (lower_hex_char_safe c Hc) as [Hsafe Hns].
    split; [simpl; by rewrite Hns, IH1 |].
    rewrite encode_cons. simpl List.map. rewrite concat_nosep_cons, IH2.
    unfold Urllib.quoter. rewrite Hsafe. simpl.
    by rewrite ascii_of_byte_of_ascii. }
  destruct Hsp as [H1 H2].
  unfold Urllib.quote_plus, Urllib.quote, Text.join. by rewrite H1.
Qed.

End QueryFacts.

(* ===================================================================== *)
(** * The models of [hashlib] and [hmac] against the standards *)
(* ===================================================================== *)

Section StandardFacts.

Import FIPS180.

Lemma fold_left_cons {A B} (f : A -> B -> A) (x : B) (l : list B) (a : A) :
  List.fold_left f (x :: l) a = List.fold_left f l (f a x).
Proof. reflexivity. Qed.

Lemma fold_left_map {A B C} (f : A -> B -> A) (g : C -> B) (l : list C) (a : A) :
  List.fold_left f (List.map g l) a
  = List.fold_left (fun s x => f s (g x)) l a.
Proof.
  revert a. induction l as [| x l IH]; intros a; [reflexivity |].
  cbn [List.map List.fold_left]. apply IH.
Qed.

(** Sums reduced word by word and sums reduced once. *)
Lemma add32_word (x y : Z) : SHA256.add32 x y = word (x + y).
Proof. reflexivity. Qed.

Lemma word_add_l (x y : Z) : word (word x + y) = word (x + y).
Proof. unfold word. by rewrite Z.add_mod_idemp_l. Qed.

Lemma word_add_r (x y : Z) : word (x + word y) = word (x + y).
Proof. unfold word. by rewrite Z.add_mod_idemp_r. Qed.

Lemma schedule_word (a b c d : Z) :
  SHA256.add32 (SHA256.add32 (SHA256.ssig1 a) b)
               (SHA256.add32 (SHA256.ssig0 c) d)
  = word (sigma1 a + b + sigma0 c + d).
Proof.
  rewrite !add32_word, word_add_l, word_add_r.
  change (SHA256.ssig1 a) with (sigma1 a).
  change (SHA256.ssig0 c) with (sigma0 c).
  f_equal. lia.
Qed.

(** The schedule of the model, newest word first, is the schedule of the
    standard read backwards. *)
Lemma schedule_extend (n : nat) (rev_w : list Z) :
  (16 <= length rev_w)%nat ->
  List.rev (SHA256.schedule n rev_w) = extend n (List.rev rev_w).
Proof.
  revert rev_w. induction n as [| n IH]; intros rev_w Hlen; [reflexivity |].
  cbn [SHA256.schedule extend].
  rewrite IH by (cbn [length]; lia).
  cbn [List.rev]. f_equal. f_equal. f_equal.
  rewrite schedule_word, length_rev.
  rewrite !(rev_nth rev_w) by lia.
  replace (length rev_w - S (length rev_w - 2))%nat with 1%nat by lia.
  replace (length rev_w - S (length rev_w - 7))%nat with 6%nat by lia.
  replace (length rev_w - S (length rev_w - 15))%nat with 14%nat by lia.
  replace (length rev_w - S (length rev_w - 16))%nat with 15%nat by lia.
  reflexivity.
Qed.

Lemma extend_length (n : nat) (W : list Z) :
  length (extend n W) = (length W + n)%nat.
Proof.
  revert W. induction n as [| n IH]; intros W; cbn [extend]; [lia |].
  rewrite IH, length_app. cbn [length]. lia.
Qed.

(** One round. *)
Lemma round_step (r : registers) (k w : Z) :
  SHA256.round (register_list r) (k, w) = register_list (step r k w).
Proof.
  destruct r as [a b c d e f g h].
  cbn [register_list SHA256.round step fst snd ra rb rc rd re rf rg rh].
  rewrite !add32_word.
  change (SHA256.bsig1 e) with (Sigma1 e).
  change (SHA256.bsig0 a) with (Sigma0 a).
  change (SHA256.Ch e f g) with (Ch e f g).
  change (SHA256.Maj a b c) with (Maj a b c).
  assert (HT1 : word (word (word (h + Sigma1 e) + word (Ch e f g + k)) + w)
                = word (h + Sigma1 e + Ch e f g + k + w)).
  { rewrite word_add_l, <- Z.add_assoc, word_add_l.
    rewrite (Z.add_comm (h + Sigma1 e)), <- Z.add_assoc, word_add_l.
    f_equal. lia. }
  rewrite HT1. reflexivity.
Qed.

Lemma fold_round_step (kws : list (Z * Z)) (r : registers) :
  List.fold_left SHA256.round kws (register_list r)
  = register_list
      (List.fold_left (fun r kw => step r (fst kw) (snd kw)) kws r).
Proof.
  revert r. induction kws as [| [k w] kws IH]; intros r; [reflexivity |].
  rewrite !fold_left_cons, round_step. apply IH.
Qed.

(** Walking two lists together, and walking their indices. *)
Lemma fold_combine_nth {A} (f : A -> Z -> Z -> A) (xs ys : list Z) (a : A) :
  length xs = length ys ->
  List.fold_left (fun s kw => f s (fst kw) (snd kw)) (List.combine xs ys) a
  = List.fold_left (fun s t => f s (List.nth t xs 0) (List.nth t ys 0))
      (List.seq 0 (length xs)) a.
Proof.
  revert ys a. induction xs as [| x xs IH]; intros ys a Hlen; [reflexivity |].
  destruct ys as [| y ys]; [discriminate |].
  cbn [List.combine List.fold_left length List.seq List.nth fst snd].
  rewrite <- seq_shift, fold_left_map.
  rewrite IH by (cbn [length] in Hlen; lia).
  reflexivity.
Qed.

Lemma constants_agree :
  SHA256.K = K /\ SHA256.H0 = register_list H_initial.
Proof. split; reflexivity. Qed.

Lemma rounds_agree (W : list Z) (r : registers) :
  length W = 64%nat ->
  List.fold_left SHA256.round (List.combine SHA256.K W) (register_list r)
  = register_list (rounds W r).
Proof.
  intros HW. rewrite fold_round_step. f_equal.
  rewrite (proj1 constants_agree).
  rewrite (fold_combine_nth step K W r) by (rewrite HW; reflexivity).
  reflexivity.
Qed.

(** Words from bytes. *)
Lemma word_of_bytes_value (b0 b1 b2 b3 : Z) :
  SHA256.word_of_bytes b0 b1 b2 b3 = big_endian_value [b0; b1; b2; b3].
Proof.
  unfold SHA256.word_of_bytes, big_endian_value. cbn [List.fold_left].
  rewrite Z.shiftl_0_l, Z.lor_0_l.
  rewrite !Z.shiftl_lor, !Z.shiftl_shiftl by lia.
  cbn [Z.add Pos.add Pos.succ].
  by rewrite <- !Z.lor_assoc.
Qed.

Lemma pieces_length {A} (size count : nat) (l : list A) :
  length (pieces size count l) = count.
Proof.
  revert l. induction count as [| count IH]; intros l; cbn [pieces length];
    [reflexivity | by rewrite IH].
Qed.

Lemma words_of_parse (n : nat) (bs : list Z) :
  length bs = (4 * n)%nat ->
  SHA256.words_of bs = List.map big_endian_value (pieces 4 n bs).
Proof.
  revert bs. induction n as [| n IH]; intros bs Hlen.
  - destruct bs; [reflexivity | discriminate].
  - destruct bs as [| b0 [| b1 [| b2 [| b3 bs]]]];
      cbn [length] in Hlen; try lia.
    cbn [SHA256.words_of pieces List.firstn List.skipn List.map].
    rewrite word_of_bytes_value, IH by lia. reflexivity.
Qed.

Lemma words_of_block (block : list Z) :
  length block = 64%nat ->
  SHA256.words_of block = block_words block
  /\ length (block_words block) = 16%nat.
Proof.
  intros Hlen. unfold block_words, parse. rewrite Hlen.
  change (64 / 4)%nat with 16%nat.
  split; [by apply words_of_parse |].
  by rewrite length_map, pieces_length.
Qed.

(** One block. *)
Lemma compress_hash_block (H : registers) (block : list Z) :
  length block = 64%nat ->
  SHA256.compress (register_list H) block = register_list (hash_block H block).
Proof.
  intros Hlen. destruct (words_of_block block Hlen) as [Hw H16].
  unfold SHA256.compress, hash_block, schedule.
  rewrite Hw, schedule_extend by (rewrite length_rev; lia).
  rewrite rev_involutive.
  rewrite rounds_agree by (rewrite extend_length; lia).
  destruct H as [a b c d e f g h].
  destruct (rounds _ _) as [a' b' c' d' e' f' g' h'].
  reflexivity.
Qed.

Lemma fold_compress (bs : list (list Z)) (H : registers) :
  Forall (fun b => length b = 64%nat) bs ->
  List.fold_left SHA256.compress bs (register_list H)
  = register_list (List.fold_left hash_block bs H).
Proof.
  intros Hall. revert H.
  induction Hall as [| b bs Hb Hbs IH]; intros H; [reflexivity |].
  rewrite !fold_left_cons, compress_hash_block by exact Hb. apply IH.
Qed.

(** The blocks of a message whose length is a multiple of 64. *)
Lemma blocks_pieces (n fuel : nat) (p : list Z) :
  length p = (64 * n)%nat -> (n <= fuel)%nat ->
  SHA256.blocks fuel p = pieces 64 n p
  /\ Forall (fun b => length b = 64%nat) (pieces 64 n p).
Proof.
  revert fuel p. induction n as [| n IH]; intros fuel p Hlen Hfuel.
  - destruct p; [| discriminate]. destruct fuel; split; by constructor.
  - destruct fuel as [| fuel]; [lia |].
    destruct p as [| x p]; [discriminate |].
    destruct (IH fuel (List.skipn 64 (x :: p))) as [Hb Hall];
      [rewrite length_skipn; lia | lia |].
    cbn [SHA256.blocks pieces]. rewrite Hb. split; [reflexivity |].
    constructor; [| exact Hall].
    rewrite length_firstn. lia.
Qed.

(** The padding. *)
Lemma padding_zeros (len : Z) :
  ((448 - (8 * len + 1)) mod 512 - 7) / 8 = (55 - len) mod 64.
Proof.
  pose proof (Z.mod_pos_bound (55 - len) 64 ltac:(lia)) as Hm.
  pose proof (Z.div_mod (55 - len) 64 ltac:(lia)) as Hd.
  assert (Hk : (448 - (8 * len + 1)) mod 512 = 8 * ((55 - len) mod 64) + 7).
  { symmetry. apply (Z.mod_unique_pos _ _ ((55 - len) / 64)); lia. }
  rewrite Hk.
  replace (8 * ((55 - len) mod 64) + 7 - 7) with ((55 - len) mod 64 * 8) by lia.
  apply Z.div_mul. lia.
Qed.

Lemma length_bytes (bits : Z) :
  List.map (fun i => Z.shiftr bits (8 * i) mod 256) [7; 6; 5; 4; 3; 2; 1; 0]
  = big_endian_bytes 8 bits.
Proof.
  unfold big_endian_bytes.
  cbn [List.seq List.rev List.app List.map].
  rewrite !Z.shiftr_div_pow2 by lia.
  reflexivity.
Qed.

Lemma pad_padding (m : list Z) :
  SHA256.pad m = m ++ padding (length m).
Proof.
  unfold SHA256.pad, padding.
  by rewrite padding_zeros, length_bytes.
Qed.

Lemma pad_length (m : list Z) :
  exists n, length (SHA256.pad m) = (64 * n)%nat /\ (n <= length (SHA256.pad m))%nat.
Proof.
  unfold SHA256.pad.
  pose proof (Z.mod_pos_bound (55 - Z.of_nat (length m)) 64 ltac:(lia)) as Hm.
  pose proof (Z.div_mod (55 - Z.of_nat (length m)) 64 ltac:(lia)) as Hd.
  exists (Z.to_nat (1 - (55 - Z.of_nat (length m)) / 64)).
  rewrite !length_app, repeat_length, length_map. cbn [length].
  split; lia.
Qed.

(** The digest. *)
Lemma word_bytes (x : Z) :
  SHA256.bytes_of_word x
  = List.map Text.byte_of_val (big_endian_bytes 4 x).
Proof.
  unfold SHA256.bytes_of_word, big_endian_bytes.
  cbn [List.seq List.rev List.app List.map].
  rewrite !Z.shiftr_div_pow2 by lia.
  unfold Text.byte_of_val. rewrite !Z.mod_mod by lia.
  change (256 ^ Z.of_nat 0) with 1. rewrite Z.div_1_r.
  reflexivity.
Qed.

Lemma concat_word_bytes (ws : list Z) :
  List.concat (List.map SHA256.bytes_of_word ws)
  = List.map Text.byte_of_val (List.concat (List.map (big_endian_bytes 4) ws)).
Proof.
  induction ws as [| x ws IH]; [reflexivity |].
  cbn [List.map List.concat]. by rewrite map_app, IH, word_bytes.
Qed.

(** [hashlib.sha256] computes SHA-256 as FIPS 180-4 defines it. *)
Lemma sha256_digest_standard (msg : list byte) :
  SHA256.digest msg = sha256 msg.
Proof.
  unfold SHA256.digest, SHA256.digest_words, sha256, parse.
  set (m := List.map Text.byte_val msg).
  destruct (pad_length m) as (n & Hn & Hle).
  destruct (blocks_pieces n _ _ Hn Hle) as [-> Hall].
  rewrite (proj2 constants_agree), fold_compress by exact Hall.
  rewrite concat_word_bytes.
  rewrite <- pad_padding, Hn.
  replace (64 * n / 64)%nat with n
    by (symmetry; rewrite Nat.mul_comm; apply Nat.div_mul; lia).
  reflexivity.
Qed.

(** [hmac.new(key, msg, hashlib.sha256)] computes HMAC as RFC 2104 defines
    it over SHA-256. *)
Lemma hmac_digest_standard (key msg : list byte) :
  HMAC.digest key msg = RFC2104.hmac_sha256 key msg.
Proof.
  unfold HMAC.digest, RFC2104.hmac_sha256, RFC2104.hmac.
  rewrite !sha256_digest_standard. reflexivity.
Qed.

Lemma hex_lowercase (bs : list byte) :
  HMAC.hex bs = QueryRules.lowercase_hex bs.
Proof.
  induction bs as [| b bs IH]; [reflexivity |].
  rewrite hex_cons, IH. cbn [QueryRules.lowercase_hex].
  destruct b; reflexivity.
Qed.

(** The query encoding. *)
Lemma query_escape_standard (b : byte) :
  query_escape b = QueryRules.escape (ascii_of_byte b).
Proof. destruct b; reflexivity. Qed.

Lemma query_escape_text_standard (s : string) :
  query_escape_text s = QueryRules.escape_text s.
Proof.
  unfold query_escape_text.
  induction s as [| c s IH]; [reflexivity |].
  rewrite encode_cons. cbn [List.map QueryRules.escape_text].
  rewrite concat_nosep_cons, IH, query_escape_standard.
  by rewrite ascii_of_byte_of_ascii.
Qed.

(** [urlencode] yields the [key=value] pairs, escaped under the URL query
    rules and joined with [&]. *)
Lemma urlencode_standard (P : Dict.t) :
  Urllib.urlencode P = QueryRules.query_string P.
Proof.
  rewrite urlencode_concat. unfold QueryRules.query_string. f_equal.
  apply List.map_ext. intros kv. unfold pair_text.
  by rewrite !quote_plus_escape, !query_escape_text_standard.
Qed.

End StandardFacts.

(* ===================================================================== *)
(** * The request signer *)
(* ===================================================================== *)

Section SignerClaims.

Variable self : BinanceFuturesClient.

(** C1: for every parameter mapping and secret, [_sign_request] returns
    the lowercase hexadecimal digest of HMAC-SHA256, keyed with the bytes
    of the secret, over the bytes of the query string of the mapping:
    [key=value] pairs joined with [&], keys and values percent-encoded
    under the URL query rules.  HMAC is that of RFC 2104, SHA-256 that of
    FIPS 180-4, the encoding that of [QueryRules]; the digest text has 64
    lowercase hexadecimal characters.  The last two parts tie the
    standards-side definitions to published values: test case 2 of RFC
    4231, and an escaped text. *)
Theorem sign_request_is_hmac_of_query_string (P : Dict.t) :
  _sign_request self P = Signer (api_secret self) P
  /\ Urllib.urlencode P = QueryRules.query_string P
  /\ lower_hex (_sign_request self P)
  /\ String.length (_sign_request self P) = 64%nat
  /\ QueryRules.lowercase_hex
       (RFC2104.hmac_sha256 (Text.encode "Jefe")
          (Text.encode "what do ya want for nothing?"))
     = "5bdcc146bf60754e6a042426089575c75a003f089d2739839dec58b964ec3843"
  /\ QueryRules.escape_text "a b&c=d/~%" = "a+b%26c%3Dd%2F~%25".
Proof.
  split; [| split; [| split; [| split; [| split]]]].
  - unfold _sign_request, Signer, HMAC.hexdigest.
    by rewrite urlencode_standard, hmac_digest_standard, hex_lowercase.
  - apply urlencode_standard.
  - apply hex_lower.
  - unfold _sign_request, HMAC.hexdigest.
    rewrite hex_length, hmac_digest_length. reflexivity.
  - vm_compute. reflexivity.
  - vm_compute. reflexivity.
Qed.

End SignerClaims.

(* ===================================================================== *)
(** * The validator and the order intent *)
(* ===================================================================== *)

Section Validator.

Lemma num_gt0_not_le0 (q : pynum) : num_gt0 q = true -> num_le0 q = false.
Proof.
  destruct q as [n | [v s]]; simpl.
  - intros H. apply Z.ltb_lt in H. apply Z.leb_gt. exact H.
  - destruct v as [[] | [] | | [] m e]; simpl; intros H;
      try discriminate; reflexivity.
Qed.

Lemma num_not_le0_gt0 (q : pynum) :
  num_le0 q = false -> num_is_nan q = false -> num_gt0 q = true.
Proof.
  destruct q as [n | [v s]]; simpl.
  - intros H _. apply Z.leb_gt in H. apply Z.ltb_lt. exact H.
  - destruct v as [[] | [] | | [] m e]; simpl; intros H1 H2;
      try discriminate; reflexivity.
Qed.

Lemma validate_common_cases (args : order_arguments) :
  (invalid args /\ rejects args)
  \/ (~ invalid args /\ validate_common args = Return tt).
Proof.
  unfold invalid, rejects, validate_common.
  destruct (bool_decide (side args ∈ ["BUY"; "SELL"])) eqn:Hs; simpl.
  2:{ apply bool_decide_eq_false in Hs. left. split; [by left | eauto]. }
  apply bool_decide_eq_true in Hs.
  destruct (num_le0 (quantity args)) eqn:Hq.
  { left. split; [right; by left | eauto]. }
  destruct (bool_decide (type args = "LIMIT")) eqn:Ht; simpl.
  - apply bool_decide_eq_true in Ht.
    destruct (price args) as [p |] eqn:Hp.
    + right. split; [| reflexivity].
      intros [H | [H | [_ H]]]; [by apply H | discriminate | discriminate].
    + left. split; [right; right; done | eauto].
  - apply bool_decide_eq_false in Ht.
    right. split; [| reflexivity].
    intros [H | [H | [H _]]]; [by apply H | discriminate | by apply Ht].
Qed.

Lemma validate_common_ok_iff (args : order_arguments) :
  validate_common args = Return tt <-> ~ invalid args.
Proof.
  destruct (validate_common_cases args) as [[Hi [msg Hr]] | [Hn Hv]].
  - rewrite Hr. split; [discriminate | intros H; by destruct H].
  - rewrite Hv. split; done.
Qed.

Lemma rejects_iff (args : order_arguments) : rejects args <-> invalid args.
Proof.
  destruct (validate_common_cases args) as [[Hi Hr] | [Hn Hv]].
  - split; done.
  - split; [| done]. intros [msg H]. rewrite Hv in H. discriminate.
Qed.

(** C5: [validate_common] raises a [ValueError] exactly when the side is
    not BUY or SELL, or the quantity is [<= 0], or the type is LIMIT and the
    price is absent, and raises nothing else; it rejects side HOLD,
    quantities 0 and -5, and LIMIT without a price, and accepts a BUY MARKET
    order of quantity 1.5 without a price. *)
Theorem validate_common_raises_iff (args : order_arguments) :
  (rejects args <->
     side args ∉ ["BUY"; "SELL"]
     \/ num_le0 (quantity args) = true
     \/ (type args = "LIMIT" /\ price args = None))
  /\ (validate_common args = Return tt \/ rejects args)
  /\ rejects (OrderArguments (symbol args) "HOLD" (type args) (quantity args) (price args))
  /\ rejects (OrderArguments (symbol args) (side args) (type args) (NInt 0) (price args))
  /\ rejects (OrderArguments (symbol args) (side args) (type args) (NFloat Sample.f_0_0) (price args))
  /\ rejects (OrderArguments (symbol args) (side args) (type args) (NInt (-5)) (price args))
  /\ rejects (OrderArguments (symbol args) (side args) (type args) (NFloat Sample.f_neg5) (price args))
  /\ rejects (OrderArguments (symbol args) (side args) "LIMIT" (quantity args) None)
  /\ validate_common (OrderArguments (symbol args) "BUY" "MARKET" (NFloat Sample.f_1_5) None)
     = Return tt.
Proof.
  split; [apply rejects_iff |].
  split.
  { destruct (validate_common_cases args) as [[_ H] | [_ H]]; auto. }
  repeat split; try (apply rejects_iff; unfold invalid; simpl).
  - left. apply (proj1 (bool_decide_eq_false _)). reflexivity.
  - right; left; reflexivity.
  - right; left; reflexivity.
  - right; left; reflexivity.
  - right; left; reflexivity.
  - right; right; done.
Qed.

(** C6, as the specification words it, fails: a MARKET order that carries
    a price passes validation although its price is present; and a NaN
    quantity passes although it is not [> 0]. *)
Lemma validated_intent_may_break_invariant :
  ~ (forall args : order_arguments,
       validate_common args = Return tt -> intent_invariant args)
  /\ ~ (forall args : order_arguments,
         validate_common args = Return tt ->
         (type args = "LIMIT" -> is_Some (price args))
         /\ num_gt0 (quantity args) = true
         /\ side args ∈ ["BUY"; "SELL"]).
Proof.
  split; intros H.
  - destruct (H (OrderArguments "BTCUSDT" "BUY" "MARKET" (NInt 1) (Some (NInt 100)))
                eq_refl) as [[Hp _] _].
    simpl in Hp. discriminate Hp. by eexists.
  - destruct (H (OrderArguments "BTCUSDT" "BUY" "MARKET" (NFloat Sample.f_nan) None)
                eq_refl) as (_ & Hq & _).
    discriminate Hq.
Qed.

(** C6 (amended): on every order intent that [validate_common] accepts, the
    side is BUY or SELL, the quantity is [> 0] unless it is NaN, and a LIMIT
    order has its price. *)
Theorem validate_common_accepts_invariant (args : order_arguments) :
  validate_common args = Return tt ->
  side args ∈ ["BUY"; "SELL"]
  /\ (num_is_nan (quantity args) = false -> num_gt0 (quantity args) = true)
  /\ (type args = "LIMIT" -> is_Some (price args)).
Proof.
  intros Hv. apply validate_common_ok_iff in Hv. unfold invalid in Hv.
  repeat split.
  - destruct (decide (side args ∈ ["BUY"; "SELL"])) as [|Hn]; [done |].
    destruct Hv. by left.
  - intros Hn. apply num_not_le0_gt0; [| exact Hn].
    destruct (num_le0 (quantity args)); [| reflexivity].
    destruct Hv. right; by left.
  - intros Ht. destruct (price args) as [p |] eqn:Hp; [by eexists |].
    destruct Hv. right; right; done.
Qed.

Lemma validate_common_accepts_invariant_witness :
  "SELL" ∈ ["BUY"; "SELL"]
  /\ (num_is_nan (NInt 2) = false -> num_gt0 (NInt 2) = true)
  /\ ("LIMIT" = "LIMIT" -> is_Some (Some (NFloat Sample.f_3000))).
Proof.
  apply (validate_common_accepts_invariant
           (OrderArguments "ETHUSDT" "SELL" "LIMIT" (NInt 2)
              (Some (NFloat Sample.f_3000)))).
  reflexivity.
Defined.

End Validator.

Section ValidatorAndRouter.

Lemma create_unsupported (self : OrderService) (args : order_arguments)
    (w : world) :
  type args <> "MARKET" -> type args <> "LIMIT" ->
  create self args w
  = (Raise (ValueError (String.append "Unsupported order type: " (type args))), w).
Proof.
  intros Hm Hl. unfold create.
  rewrite !bool_decide_eq_false_2 by assumption. reflexivity.
Qed.

Lemma create_market (self : OrderService) (args : order_arguments) :
  type args = "MARKET" ->
  create self args
  = place_market_order (binance_client self)
      (symbol args) (side args) (quantity args).
Proof. intros Hm. unfold create. by rewrite bool_decide_eq_true_2. Qed.

Lemma create_limit (self : OrderService) (args : order_arguments) :
  type args = "LIMIT" ->
  create self args
  = place_limit_order (binance_client self)
      (symbol args) (side args) (quantity args) (price args).
Proof.
  intros Hl. unfold create.
  rewrite bool_decide_eq_false_2 by (rewrite Hl; discriminate).
  by rewrite bool_decide_eq_true_2.
Qed.

(** C10: [validate_common] looks at the side, the quantity and, for LIMIT,
    the price only.  With a valid side, a positive quantity and a price
    whenever the type is LIMIT, validation succeeds for every symbol (the
    empty one too) and every type value; a type other than MARKET and LIMIT
    is refused by [create] alone, with a [ValueError] and no effect on the
    world; a MARKET order that carries a price is validated and routed as
    if it carried none. *)
Theorem validate_common_ignores_symbol_and_type
    (sym sd ty : string) (q : pynum) (p : option pynum) :
  sd ∈ ["BUY"; "SELL"] ->
  num_gt0 q = true ->
  (ty <> "LIMIT" \/ is_Some p) ->
  validate_common (OrderArguments sym sd ty q p) = Return tt
  /\ validate_common (OrderArguments "" sd ty q p) = Return tt
  /\ (forall sym', validate_common (OrderArguments sym' sd ty q p) = Return tt)
  /\ (forall ty', ty' <> "LIMIT" ->
        validate_common (OrderArguments sym sd ty' q p) = Return tt)
  /\ (ty <> "MARKET" -> ty <> "LIMIT" ->
      forall self w,
        create self (OrderArguments sym sd ty q p) w
        = (Raise (ValueError (String.append "Unsupported order type: " ty)), w))
  /\ (ty = "MARKET" ->
      forall self,
        create self (OrderArguments sym sd ty q p)
        = place_market_order (binance_client self) sym sd q
        /\ create self (OrderArguments sym sd ty q p)
           = create self (OrderArguments sym sd ty q None)).
Proof.
  intros Hsd Hq Hp.
  assert (Hok : forall s t, (t <> "LIMIT" \/ is_Some p) ->
                  validate_common (OrderArguments s sd t q p) = Return tt).
  { intros s t Ht. apply validate_common_ok_iff. unfold invalid; simpl.
    intros [H | [H | [H1 H2]]].
    - by apply H.
    - rewrite (num_gt0_not_le0 q Hq) in H. discriminate.
    - destruct Ht as [Ht | [x Hx]]; [by apply Ht | congruence]. }
  repeat split; auto.
  - intros Hm Hl self w. by apply (create_unsupported self (OrderArguments sym sd ty q p)).
  - by apply (create_market self (OrderArguments sym sd ty q p)).
  - rewrite (create_market self (OrderArguments sym sd ty q p)) by assumption.
    rewrite (create_market self (OrderArguments sym sd ty q None)) by assumption.
    reflexivity.
Qed.

Lemma validate_common_ignores_symbol_and_type_witness :
  validate_common (OrderArguments "" "BUY" "STOP" (NInt 1) None) = Return tt
  /\ (forall self w,
        create self (OrderArguments "" "BUY" "STOP" (NInt 1) None) w
        = (Raise (ValueError "Unsupported order type: STOP"), w)).
Proof.
  destruct (validate_common_ignores_symbol_and_type "" "BUY" "STOP" (NInt 1) None)
    as (Hv & _ & _ & _ & Hc & _).
  - apply (bool_decide_unpack _). reflexivity.
  - reflexivity.
  - left. discriminate.
  - split; [exact Hv |]. apply Hc; discriminate.
Defined.

End ValidatorAndRouter.

(* ===================================================================== *)
(** * The transport: mutation, signature, outcomes *)
(* ===================================================================== *)

Section TransportClaims.




Lemma last_request_run
    (self : BinanceFuturesClient) (path : string) (l : loc) (P : Dict.t)
    (w : world) :
  heap w !! l = Some P ->
  last (sent (snd (_post_request self path l w)))
  = Some (wire_request self path (clock w (reads w)) P).
Proof.
  intros HP. rewrite (post_request_run self path l P w HP). simpl.
  apply last_snoc.
Qed.

(** C3, as the specification words it, fails: the signed parameter set is
    not always the transmitted one without its [signature] entry.  A
    [signature] entry the caller supplied is signed like any other
    parameter, so signing the transmitted mapping without its signature
    gives another digest than the one transmitted. *)
Lemma post_request_signs_supplied_signature :
  ~ (forall (c : BinanceFuturesClient) (path : string) (l : loc)
            (P : Dict.t) (w : world) (rq : request),
       heap w !! l = Some P ->
       last (sent (snd (_post_request c path l w))) = Some rq ->
       Dict.get "signature" (rq_params rq)
       = Some (VStr (_sign_request c (Dict.remove "signature" (rq_params rq))))).
Proof.
  intros H.
  pose (P := [("symbol", VStr "BTCUSDT"); ("signature", VStr "stale")]).
  pose (w := Sample.world_answering [P] (Responded Sample.ok_response)).
  pose proof (H Sample.client "/fapi/v1/order" 0%nat P w
                (wire_request Sample.client "/fapi/v1/order" (clock w (reads w)) P)
                eq_refl
                (last_request_run Sample.client "/fapi/v1/order" 0%nat P w eq_refl))
    as Hs.
  vm_compute in Hs. discriminate Hs.
Qed.

(** C3 (amended): the signature transmitted by [_post_request] is the
    signer's result on the caller's parameters with the [timestamp] entry
    set, taken before the [signature] entry is written: the signed mapping
    keeps every caller-supplied entry (a [signature] entry included, if the
    caller supplied one) and holds the injected timestamp.  When the caller
    supplied no [signature] key, the signed mapping has none and is the
    transmitted mapping without its [signature] entry. *)
Theorem post_request_signs_stamped_params
    (self : BinanceFuturesClient) (path : string) (l : loc) (P : Dict.t)
    (w : world) :
  heap w !! l = Some P ->
  exists rq,
    sent (snd (_post_request self path l w)) = sent w ++ [rq]
    /\ Dict.get "signature" (rq_params rq)
       = Some (VStr (_sign_request self
                       (Dict.set "timestamp" (VInt (clock w (reads w))) P)))
    /\ rq_params rq
       = Dict.set "signature"
           (VStr (_sign_request self
                    (Dict.set "timestamp" (VInt (clock w (reads w))) P)))
           (Dict.set "timestamp" (VInt (clock w (reads w))) P)
    /\ Dict.get "timestamp" (Dict.set "timestamp" (VInt (clock w (reads w))) P)
       = Some (VInt (clock w (reads w)))
    /\ (forall k, k <> "timestamp" ->
          Dict.get k (Dict.set "timestamp" (VInt (clock w (reads w))) P)
          = Dict.get k P)
    /\ (Dict.get "signature" P = None ->
        Dict.get "signature" (Dict.set "timestamp" (VInt (clock w (reads w))) P)
        = None
        /\ Dict.remove "signature" (rq_params rq)
           = Dict.set "timestamp" (VInt (clock w (reads w))) P).
Proof.
  intros HP.
  exists (wire_request self path (clock w (reads w)) P).
  rewrite (post_request_run self path l P w HP).
  unfold wire_request, signed_params, stamped; simpl.
  repeat split.
  - apply get_set_eq.
  - apply get_set_eq.
  - intros k Hk. by apply get_set_ne.
  - rewrite get_set_ne by discriminate. assumption.
  - rewrite set_absent by (rewrite get_set_ne by discriminate; assumption).
    apply remove_snoc. rewrite get_set_ne by discriminate. assumption.
Qed.

Lemma post_request_signs_stamped_params_witness :
  exists rq,
    sent (snd (_post_request Sample.client "/fapi/v1/leverage" 0
                 (Sample.world_answering [leverage_params "BTCUSDT"]
                    (Responded Sample.ok_response))))
    = [] ++ [rq]
    /\ Dict.get "signature" (rq_params rq)
       = Some (VStr (_sign_request Sample.client
                       (Dict.set "timestamp" (VInt 1700000000000)
                          (leverage_params "BTCUSDT")))).
Proof.
  destruct (post_request_signs_stamped_params Sample.client "/fapi/v1/leverage" 0
              (leverage_params "BTCUSDT")
              (Sample.world_answering [leverage_params "BTCUSDT"]
                 (Responded Sample.ok_response))
              eq_refl) as (rq & H1 & H2 & _).
  exists rq. split; [exact H1 | exact H2].
Defined.




(** C9, as the specification words it, fails for some parameter sets: a
    value that is [None] is signed as the text [None] but left out of the
    transmitted query, and a [signature] entry supplied by the caller is
    part of the signed text, so that signing the transmitted parameters
    without their signature gives another digest. *)
Lemma post_request_round_trip_may_fail :
  ~ (forall (c : BinanceFuturesClient) (path : string) (l : loc)
            (P : Dict.t) (w : world) (rq : request),
       heap w !! l = Some P ->
       Dict.get "signature" P = None ->
       last (sent (snd (_post_request c path l w))) = Some rq ->
       round_trips c rq)
  /\ ~ (forall (c : BinanceFuturesClient) (path : string) (l : loc)
              (P : Dict.t) (w : world) (rq : request),
         heap w !! l = Some P ->
         no_None P ->
         last (sent (snd (_post_request c path l w))) = Some rq ->
         round_trips c rq).
Proof.
  split; intros H.
  - pose (P := limit_params "ETHUSDT" "SELL" (NInt 2) None).
    pose (w := Sample.world_answering [P] (Responded Sample.ok_response)).
    destruct (H Sample.client "/fapi/v1/order" 0%nat P w
                (wire_request Sample.client "/fapi/v1/order" (clock w (reads w)) P)
                eq_refl eq_refl (last_request_run Sample.client "/fapi/v1/order" 0%nat P w eq_refl))
      as [Hq _].
    vm_compute in Hq. discriminate Hq.
  - pose (P := [("symbol", VStr "BTCUSDT"); ("signature", VStr "stale")]).
    pose (w := Sample.world_answering [P] (Responded Sample.ok_response)).
    assert (HP : no_None P) by (repeat constructor; discriminate).
    destruct (H Sample.client "/fapi/v1/order" 0%nat P w
                (wire_request Sample.client "/fapi/v1/order" (clock w (reads w)) P)
                eq_refl HP (last_request_run Sample.client "/fapi/v1/order" 0%nat P w eq_refl))
      as [_ Hs].
    vm_compute in Hs. discriminate Hs.
Qed.

(** C9 (amended): when no value of the caller's mapping is [None] and the
    mapping has no [signature] key, the query transmitted is the signer's
    encoding of the transmitted mapping: it is the signed text followed by
    [&signature=] and the digest, and signing the transmitted mapping
    without its [signature] entry gives the transmitted signature. *)
Theorem post_request_round_trip
    (self : BinanceFuturesClient) (path : string) (l : loc) (P : Dict.t)
    (w : world) :
  heap w !! l = Some P ->
  Dict.get "signature" P = None ->
  no_None P ->
  exists rq,
    last (sent (snd (_post_request self path l w))) = Some rq
    /\ round_trips self rq
    /\ rq_query rq
       = String.append
           (Urllib.urlencode (Dict.set "timestamp" (VInt (clock w (reads w))) P))
           (String.append "&signature="
              (_sign_request self
                 (Dict.set "timestamp" (VInt (clock w (reads w))) P)))
    /\ Dict.remove "signature" (rq_params rq)
       = Dict.set "timestamp" (VInt (clock w (reads w))) P.
Proof.
  intros HP Hsig Hnone.
  exists (wire_request self path (clock w (reads w)) P).
  split; [by apply last_request_run |].
  unfold round_trips, wire_request, signed_params, stamped; simpl.
  set (S := Dict.set "timestamp" (VInt (clock w (reads w))) P).
  assert (HS : Dict.get "signature" S = None).
  { unfold S. rewrite get_set_ne by discriminate. exact Hsig. }
  assert (HnS : no_None S).
  { unfold S. apply no_None_set; [discriminate | exact Hnone]. }
  assert (Hrm : Dict.remove "signature"
                  (Dict.set "signature" (VStr (_sign_request self S)) S) = S).
  { rewrite set_absent by exact HS. by apply remove_snoc. }
  assert (Henc : encode_params (Dict.set "signature" (VStr (_sign_request self S)) S)
                 = Urllib.urlencode
                     (Dict.set "signature" (VStr (_sign_request self S)) S)).
  { apply encode_params_no_None. apply no_None_set; [discriminate | exact HnS]. }
  repeat split.
  - exact Henc.
  - rewrite Hrm. apply get_set_eq.
  - rewrite Henc, set_absent by exact HS.
    rewrite urlencode_snoc by (unfold S; apply set_not_nil).
    unfold pair_text; cbn [fst snd str].
    rewrite (quote_plus_lower_hex (_sign_request self S)) by apply hex_lower.
    reflexivity.
  - exact Hrm.
Qed.

Lemma post_request_round_trip_witness :
  exists rq,
    last (sent (snd (_post_request Sample.client "/fapi/v1/leverage" 0
                       (Sample.world_answering [leverage_params "BTCUSDT"]
                          (Responded Sample.ok_response)))))
    = Some rq
    /\ round_trips Sample.client rq.
Proof.
  destruct (post_request_round_trip Sample.client "/fapi/v1/leverage" 0
              (leverage_params "BTCUSDT")
              (Sample.world_answering [leverage_params "BTCUSDT"]
                 (Responded Sample.ok_response)))
    as (rq & H1 & H2 & _).
  - reflexivity.
  - reflexivity.
  - repeat constructor; discriminate.
  - exists rq. split; [exact H1 | exact H2].
Defined.

End TransportClaims.

(* ===================================================================== *)
(** * The bootstrap and the order router *)
(* ===================================================================== *)

Section RouterClaims.

Lemma after_bootstrap_frame (self : BinanceFuturesClient) (sym : string)
    (w : world) :
  clock (after_bootstrap self sym w) = clock w
  /\ reads (after_bootstrap self sym w) = S (reads w)
  /\ server (after_bootstrap self sym w) = server w
  /\ sent (after_bootstrap self sym w)
     = sent w ++ [wire_request self "/fapi/v1/leverage" (clock w (reads w))
                    (leverage_params sym)].
Proof. repeat split. Qed.

(** What an order submission leaves on the wire and returns, once the
    bootstrap has run: two calls, and what the second brings. *)
Lemma order_after_bootstrap (self : BinanceFuturesClient) (sym : string)
    (P : Dict.t) (w : world) :
  sent (after_submit self "/fapi/v1/order" P (after_bootstrap self sym w))
  = sent w ++ [wire_request self "/fapi/v1/leverage" (clock w (reads w))
                 (leverage_params sym);
               wire_request self "/fapi/v1/order" (clock w (S (reads w))) P]
  /\ submit_outcome self "/fapi/v1/order" P (after_bootstrap self sym w)
     = post_outcome
         (server w (S (length (sent w)))
            (wire_request self "/fapi/v1/order" (clock w (S (reads w))) P)).
Proof.
  split.
  - rewrite after_submit_sent. unfold submit_request.
    destruct (after_bootstrap_frame self sym w) as (-> & -> & _ & ->).
    by rewrite <- app_assoc.
  - unfold submit_outcome, next_answer, submit_request.
    destruct (after_bootstrap_frame self sym w) as (-> & -> & -> & ->).
    rewrite length_app. simpl. by rewrite Nat.add_1_r.
Qed.

(** C4: [ensure_symbol_ready] returns normally in every world: whatever
    [set_leverage] (called with the multiplier 10) did, its failure is
    dropped.  [place_market_order] and [place_limit_order] then go on to
    submit the order, and the request they transmit is fixed by the order
    and the clock alone, not by the outcome of the bootstrap. *)
Theorem ensure_symbol_ready_never_raises
    (self : BinanceFuturesClient) (sym sd : string) (q : pynum)
    (p : option pynum) (w : world) :
  fst (ensure_symbol_ready self sym w) = Return tt
  /\ snd (ensure_symbol_ready self sym w) = snd (set_leverage self sym 10 w)
  /\ place_market_order self sym sd q w
     = (params <- new_dict [("symbol", VStr sym); ("side", VStr sd);
                            ("type", VStr "MARKET"); ("quantity", of_num q)] ;;
        _post_request self "/fapi/v1/order" params)
         (snd (ensure_symbol_ready self sym w))
  /\ place_limit_order self sym sd q p w
     = (params <- new_dict [("symbol", VStr sym); ("side", VStr sd);
                            ("type", VStr "LIMIT"); ("timeInForce", VStr "GTC");
                            ("quantity", of_num q); ("price", of_opt_num p)] ;;
        _post_request self "/fapi/v1/order" params)
         (snd (ensure_symbol_ready self sym w))
  /\ sent (snd (place_market_order self sym sd q w))
     = sent w ++ [wire_request self "/fapi/v1/leverage" (clock w (reads w))
                    [("symbol", VStr sym); ("leverage", VInt 10)];
                  wire_request self "/fapi/v1/order" (clock w (S (reads w)))
                    (market_params sym sd q)]
  /\ sent (snd (place_limit_order self sym sd q p w))
     = sent w ++ [wire_request self "/fapi/v1/leverage" (clock w (reads w))
                    [("symbol", VStr sym); ("leverage", VInt 10)];
                  wire_request self "/fapi/v1/order" (clock w (S (reads w)))
                    (limit_params sym sd q p)].
Proof.
  rewrite place_market_order_run, place_limit_order_run.
  rewrite ensure_symbol_ready_run, set_leverage_run, !submit_run.
  simpl fst; simpl snd.
  repeat split.
  - apply (order_after_bootstrap self sym (market_params sym sd q) w).
  - apply (order_after_bootstrap self sym (limit_params sym sd q p) w).
Qed.

(** C7: [create] on a MARKET order runs the bootstrap for the order's
    symbol once, then sends once to the order endpoint the parameters
    symbol, side, type MARKET and quantity; on a LIMIT order it does the
    same with symbol, side, type LIMIT, timeInForce GTC, quantity and
    price.  In both cases its result is the transport's result.  On any
    other type it raises a [ValueError] at once and the world is unchanged:
    no bootstrap, no send. *)
Theorem create_routes_by_type
    (self : OrderService) (args : order_arguments) (w : world) :
  (type args = "MARKET" ->
   create self args w
   = (params <- new_dict [("symbol", VStr (symbol args));
                          ("side", VStr (side args));
                          ("type", VStr "MARKET");
                          ("quantity", of_num (quantity args))] ;;
      _post_request (binance_client self) "/fapi/v1/order" params)
       (snd (ensure_symbol_ready (binance_client self) (symbol args) w))
   /\ sent (snd (create self args w))
      = sent w ++ [wire_request (binance_client self) "/fapi/v1/leverage"
                     (clock w (reads w))
                     [("symbol", VStr (symbol args)); ("leverage", VInt 10)];
                   wire_request (binance_client self) "/fapi/v1/order"
                     (clock w (S (reads w)))
                     [("symbol", VStr (symbol args));
                      ("side", VStr (side args));
                      ("type", VStr "MARKET");
                      ("quantity", of_num (quantity args))]]
   /\ fst (create self args w)
      = post_outcome
          (server w (S (length (sent w)))
             (wire_request (binance_client self) "/fapi/v1/order"
                (clock w (S (reads w)))
                (market_params (symbol args) (side args) (quantity args)))))
  /\ (type args = "LIMIT" ->
      create self args w
      = (params <- new_dict [("symbol", VStr (symbol args));
                             ("side", VStr (side args));
                             ("type", VStr "LIMIT");
                             ("timeInForce", VStr "GTC");
                             ("quantity", of_num (quantity args));
                             ("price", of_opt_num (price args))] ;;
         _post_request (binance_client self) "/fapi/v1/order" params)
          (snd (ensure_symbol_ready (binance_client self) (symbol args) w))
      /\ sent (snd (create self args w))
         = sent w ++ [wire_request (binance_client self) "/fapi/v1/leverage"
                        (clock w (reads w))
                        [("symbol", VStr (symbol args)); ("leverage", VInt 10)];
                      wire_request (binance_client self) "/fapi/v1/order"
                        (clock w (S (reads w)))
                        [("symbol", VStr (symbol args));
                         ("side", VStr (side args));
                         ("type", VStr "LIMIT");
                         ("timeInForce", VStr "GTC");
                         ("quantity", of_num (quantity args));
                         ("price", of_opt_num (price args))]]
      /\ fst (create self args w)
         = post_outcome
             (server w (S (length (sent w)))
                (wire_request (binance_client self) "/fapi/v1/order"
                   (clock w (S (reads w)))
                   (limit_params (symbol args) (side args) (quantity args)
                      (price args)))))
  /\ (type args <> "MARKET" -> type args <> "LIMIT" ->
      create self args w
      = (Raise (ValueError (String.append "Unsupported order type: " (type args))),
         w)).
Proof.
  split; [| split].
  - intros Hm. rewrite (create_market self args Hm).
    rewrite place_market_order_run, ensure_symbol_ready_run, submit_run.
    simpl fst; simpl snd.
    destruct (order_after_bootstrap (binance_client self) (symbol args)
                (market_params (symbol args) (side args) (quantity args)) w)
      as [Hs Ho].
    split; [reflexivity | split; [exact Hs | exact Ho]].
  - intros Hl. rewrite (create_limit self args Hl).
    rewrite place_limit_order_run, ensure_symbol_ready_run, submit_run.
    simpl fst; simpl snd.
    destruct (order_after_bootstrap (binance_client self) (symbol args)
                (limit_params (symbol args) (side args) (quantity args)
                   (price args)) w)
      as [Hs Ho].
    split; [reflexivity | split; [exact Hs | exact Ho]].
  - apply create_unsupported.
Qed.

Lemma create_routes_by_type_witness :
  fst (create Sample.service
         (OrderArguments "BTCUSDT" "BUY" "MARKET" (NFloat Sample.f_0_01) None)
         (Sample.world_first_failing (Responded Sample.margin_response)))
  = Return (JObj []).
Proof.
  destruct (create_routes_by_type Sample.service
              (OrderArguments "BTCUSDT" "BUY" "MARKET" (NFloat Sample.f_0_01) None)
              (Sample.world_first_failing (Responded Sample.margin_response)))
    as [Hm _].
  destruct (Hm eq_refl) as (_ & _ & Hr).
  rewrite Hr. reflexivity.
Defined.

End RouterClaims.

(* ===================================================================== *)
(** * Further properties of the transport *)
(* ===================================================================== *)

Section TransportTrace.







End TransportTrace.

Section TransportFrame.

Lemma remove_set_same (k : string) (v : pyval) (d : Dict.t) :
  Dict.remove k (Dict.set k v d) = Dict.remove k d.
Proof.
  induction d as [| [k' v'] d IH]; simpl.
  - by rewrite decide_True.
  - destruct (decide (k = k')) as [-> | Hne]; simpl.
    + by rewrite decide_True.
    + by rewrite decide_False, IH.
Qed.

(** X3: the API secret reaches the wire through the signature only.  Two
    clients with the same key and timeout but different secrets send, for
    the same mapping at the same time, requests with the same URL, the
    same headers (the key, never the secret) and the same parameters but
    for the value of [signature]. *)
Theorem secret_only_in_signature
    (c1 c2 : BinanceFuturesClient) (path : string) (l : loc) (P : Dict.t)
    (w : world) :
  heap w !! l = Some P ->
  api_key c1 = api_key c2 ->
  request_timeout c1 = request_timeout c2 ->
  exists rq1 rq2,
    sent (snd (_post_request c1 path l w)) = sent w ++ [rq1]
    /\ sent (snd (_post_request c2 path l w)) = sent w ++ [rq2]
    /\ rq_method rq1 = rq_method rq2
    /\ rq_url rq1 = rq_url rq2
    /\ rq_timeout rq1 = rq_timeout rq2
    /\ rq_headers rq1 = [("X-MBX-APIKEY", api_key c1)]
    /\ rq_headers rq2 = [("X-MBX-APIKEY", api_key c1)]
    /\ Dict.remove "signature" (rq_params rq1)
       = Dict.remove "signature" (rq_params rq2)
    /\ (forall k, k <> "signature" ->
          Dict.get k (rq_params rq1) = Dict.get k (rq_params rq2)).
Proof.
  intros HP Hk Ht.
  exists (wire_request c1 path (clock w (reads w)) P),
         (wire_request c2 path (clock w (reads w)) P).
  rewrite !(post_request_run _ path l P w HP).
  unfold after_post, wire_request, signed_params; simpl.
  rewrite Ht, <- Hk, !remove_set_same.
  repeat split.
  intros k Hne. by rewrite !get_set_ne.
Qed.

Lemma secret_only_in_signature_witness :
  exists rq1 rq2,
    sent (snd (_post_request (Client "KEY" "one" 10) "/fapi/v1/order" 0
                 (Sample.world_answering [market_params "BTCUSDT" "BUY" (NInt 1)]
                    (Failed Timeout))))
    = [] ++ [rq1]
    /\ sent (snd (_post_request (Client "KEY" "two" 10) "/fapi/v1/order" 0
                    (Sample.world_answering [market_params "BTCUSDT" "BUY" (NInt 1)]
                       (Failed Timeout))))
       = [] ++ [rq2]
    /\ Dict.remove "signature" (rq_params rq1)
       = Dict.remove "signature" (rq_params rq2).
Proof.
  destruct (secret_only_in_signature (Client "KEY" "one" 10) (Client "KEY" "two" 10)
              "/fapi/v1/order" 0 (market_params "BTCUSDT" "BUY" (NInt 1))
              (Sample.world_answering [market_params "BTCUSDT" "BUY" (NInt 1)]
                 (Failed Timeout))
              eq_refl eq_refl eq_refl)
    as (rq1 & rq2 & H1 & H2 & _ & _ & _ & _ & _ & H3 & _).
  exists rq1, rq2. repeat split; assumption.
Defined.

(** X4: sending the same mapping twice.  The first send leaves its
    timestamp and signature in the mapping, so the second send signs a
    text that holds the first signature as a parameter, and replaces the
    timestamp and the signature in place. *)
Theorem post_request_twice_signs_old_signature
    (self : BinanceFuturesClient) (path : string) (l : loc) (P : Dict.t)
    (w : world) :
  heap w !! l = Some P ->
  exists rq1 rq2,
    sent (snd (_post_request self path l (snd (_post_request self path l w))))
    = sent w ++ [rq1; rq2]
    /\ Dict.get "signature" (rq_params rq2)
       = Some (VStr (_sign_request self
                       (Dict.set "timestamp" (VInt (clock w (S (reads w))))
                          (rq_params rq1))))
    /\ Dict.get "signature"
         (Dict.set "timestamp" (VInt (clock w (S (reads w)))) (rq_params rq1))
       = Dict.get "signature" (rq_params rq1)
    /\ is_Some (Dict.get "signature" (rq_params rq1))
    /\ Dict.get "timestamp" (rq_params rq2) = Some (VInt (clock w (S (reads w))))
    /\ length (rq_params rq2) = length (rq_params rq1).
Proof.
  intros HP.
  assert (Hl : (l < length (heap w))%nat) by (eapply lookup_lt_Some; eauto).
  set (rq1 := wire_request self path (clock w (reads w)) P).
  assert (Hsig1 : is_Some (Dict.get "signature" (rq_params rq1))).
  { simpl. unfold signed_params. rewrite get_set_eq. by eexists. }
  assert (Hts1 : is_Some (Dict.get "timestamp" (rq_params rq1))).
  { simpl. unfold signed_params, stamped.
    rewrite get_set_ne by discriminate. rewrite get_set_eq. by eexists. }
  assert (H1 : heap (after_post self path l P w) !! l = Some (rq_params rq1)).
  { unfold after_post; simpl. by apply list_lookup_insert_eq. }
  exists rq1,
    (wire_request self path (clock w (S (reads w))) (rq_params rq1)).
  rewrite (post_request_run self path l P w HP); simpl snd.
  rewrite (post_request_run self path l _ _ H1).
  assert (Hlen : forall k v (d : Dict.t), is_Some (Dict.get k d) ->
                   length (Dict.set k v d) = length d).
  { intros k v d. induction d as [| [k' v'] d IH]; simpl.
    - intros [x Hx]. discriminate.
    - destruct (decide (k = k')); simpl; [reflexivity |].
      intros H. by rewrite IH. }
  generalize dependent (rq_params rq1). intros W1 Hsig1 Hts1 H1.
  cbn [snd].
  change (sent (after_post self path l W1 (after_post self path l P w)))
    with ((sent w ++ [rq1])
          ++ [wire_request self path (clock w (S (reads w))) W1]).
  cbn [rq_params wire_request].
  unfold signed_params, stamped.
  split; [by rewrite <- app_assoc |].
  split; [apply get_set_eq |].
  split; [by rewrite get_set_ne |].
  split; [exact Hsig1 |].
  split; [rewrite get_set_ne by discriminate; apply get_set_eq |].
  rewrite Hlen.
  - by apply Hlen.
  - by rewrite get_set_ne.
Qed.

Lemma post_request_twice_signs_old_signature_witness :
  exists rq1 rq2,
    sent (snd (_post_request Sample.client "/fapi/v1/order" 0
                 (snd (_post_request Sample.client "/fapi/v1/order" 0
                         (Sample.world_answering
                            [market_params "BTCUSDT" "BUY" (NInt 1)]
                            (Failed Timeout))))))
    = [] ++ [rq1; rq2]
    /\ length (rq_params rq2) = length (rq_params rq1).
Proof.
  destruct (post_request_twice_signs_old_signature Sample.client "/fapi/v1/order" 0
              (market_params "BTCUSDT" "BUY" (NInt 1))
              (Sample.world_answering [market_params "BTCUSDT" "BUY" (NInt 1)]
                 (Failed Timeout))
              eq_refl)
    as (rq1 & rq2 & H1 & _ & _ & _ & _ & H2).
  exists rq1, rq2. split; assumption.
Defined.

End TransportFrame.

(* ===================================================================== *)
(** * Further properties of the router and the bootstrap *)
(* ===================================================================== *)

Section RouterFrame.


Lemma create_run (self : OrderService) (args : order_arguments) (w : world) :
  (type args = "MARKET" /\
   create self args w
   = (submit_outcome (binance_client self) "/fapi/v1/order"
        (market_params (symbol args) (side args) (quantity args))
        (after_bootstrap (binance_client self) (symbol args) w),
      after_submit (binance_client self) "/fapi/v1/order"
        (market_params (symbol args) (side args) (quantity args))
        (after_bootstrap (binance_client self) (symbol args) w)))
  \/ (type args = "LIMIT" /\
      create self args w
      = (submit_outcome (binance_client self) "/fapi/v1/order"
           (limit_params (symbol args) (side args) (quantity args) (price args))
           (after_bootstrap (binance_client self) (symbol args) w),
         after_submit (binance_client self) "/fapi/v1/order"
           (limit_params (symbol args) (side args) (quantity args) (price args))
           (after_bootstrap (binance_client self) (symbol args) w)))
  \/ (type args <> "MARKET" /\ type args <> "LIMIT" /\
      create self args w
      = (Raise (ValueError (String.append "Unsupported order type: " (type args))),
         w)).
Proof.
  destruct (decide (type args = "MARKET")) as [Hm | Hm].
  { left. split; [exact Hm |].
    rewrite (create_market self args Hm). apply place_market_order_run. }
  destruct (decide (type args = "LIMIT")) as [Hl | Hl].
  { right; left. split; [exact Hl |].
    rewrite (create_limit self args Hl). apply place_limit_order_run. }
  right; right. repeat split; try assumption.
  by apply create_unsupported.
Qed.




End RouterFrame.

(* ===================================================================== *)
(** * The text on the wire *)
(* ===================================================================== *)

Section WireText.

Lemma always_safe_not_space (c : ascii) :
  Urllib.always_safe (byte_of_ascii c) = true -> Ascii.eqb c " " = false.
Proof.
  destruct c as [[] [] [] [] [] [] [] []]; intros H;
    try discriminate H; reflexivity.
Qed.

(** A text made of unreserved characters is its own query encoding. *)
Lemma quote_plus_all_safe (s : string) : all_safe s -> Urllib.quote_plus s = s.
Proof.
  unfold all_safe. intros H.
  assert (Hsp : Text.has_char " " s = false
                /\ String.concat "" (List.map (Urllib.quoter []) (Text.encode s)) = s).
  { induction s as [| c s IH]; [split; reflexivity |].
    simpl in H. apply andb_true_iff in H as [Hc Hs].
    destruct (IH Hs) as [IH1 IH2].
    split; [simpl; by rewrite (always_safe_not_space c Hc), IH1 |].
    rewrite encode_cons. simpl List.map. rewrite concat_nosep_cons, IH2.
    unfold Urllib.quoter. rewrite Hc. simpl.
    by rewrite ascii_of_byte_of_ascii. }
  destruct Hsp as [H1 H2].
  unfold Urllib.quote_plus, Urllib.quote, Text.join. by rewrite H1.
Qed.

Lemma uint_all_safe (d : Decimal.uint) : all_safe (NilEmpty.string_of_uint d).
Proof. unfold all_safe. induction d; simpl; auto. Qed.

(** The decimal text of an integer needs no escaping. *)
Lemma str_int_all_safe (n : Z) : all_safe (Text.str_int n).
Proof.
  unfold Text.str_int, NilZero.string_of_int.
  destruct (Z.to_int n) as [d | d].
  - destruct d; try apply (uint_all_safe (_ _)); reflexivity.
  - unfold all_safe. simpl.
    destruct d; try apply (uint_all_safe (_ _)); reflexivity.
Qed.

Lemma pair_text_int (k : string) (n : Z) :
  all_safe k ->
  pair_text (k, VInt n) = String.append k (String.append "=" (Text.str_int n)).
Proof.
  intros Hk. unfold pair_text; cbn [fst snd str].
  by rewrite (quote_plus_all_safe k Hk),
             (quote_plus_all_safe _ (str_int_all_safe n)).
Qed.

(** The transmitted mapping, for a caller's mapping that has neither a
    [timestamp] nor a [signature] key: the two entries go last. *)
Lemma signed_params_fresh (self : BinanceFuturesClient) (now : Z) (P : Dict.t) :
  Dict.get "timestamp" P = None ->
  Dict.get "signature" P = None ->
  signed_params self now P
  = P ++ [("timestamp", VInt now);
          ("signature", VStr (_sign_request self (P ++ [("timestamp", VInt now)])))].
Proof.
  intros Hts Hsig.
  assert (HS : stamped now P = P ++ [("timestamp", VInt now)]).
  { unfold stamped. by apply set_absent. }
  unfold signed_params. rewrite HS, set_absent.
  - by rewrite <- app_assoc.
  - rewrite <- HS. unfold stamped. by rewrite get_set_ne.
Qed.

Lemma urlencode_timestamp (now : Z) (P : Dict.t) :
  P <> [] ->
  Urllib.urlencode (P ++ [("timestamp", VInt now)])
  = String.append (Urllib.urlencode P)
      (String.append "&timestamp=" (Text.str_int now)).
Proof.
  intros Hne. rewrite urlencode_snoc by exact Hne.
  rewrite pair_text_int by reflexivity. reflexivity.
Qed.

Lemma urlencode_signature (sig : string) (P : Dict.t) :
  P <> [] -> lower_hex sig ->
  Urllib.urlencode (P ++ [("signature", VStr sig)])
  = String.append (Urllib.urlencode P) (String.append "&signature=" sig).
Proof.
  intros Hne Hsig. rewrite urlencode_snoc by exact Hne.
  unfold pair_text; cbn [fst snd str].
  by rewrite (quote_plus_lower_hex sig Hsig).
Qed.

(** The text [_sign_request] digests, and the digest. *)
Lemma sign_request_text (self : BinanceFuturesClient) (P : Dict.t) :
  _sign_request self P
  = HMAC.hexdigest (Text.encode (api_secret self))
      (Text.encode (Urllib.urlencode P)).
Proof. reflexivity. Qed.

(** The query of a request, for a mapping that has neither a [timestamp]
    nor a [signature] key and no [None] value. *)
Lemma wire_query_fresh (self : BinanceFuturesClient) (path : string)
    (now : Z) (P : Dict.t) :
  P <> [] ->
  Dict.get "timestamp" P = None ->
  Dict.get "signature" P = None ->
  no_None P ->
  rq_query (wire_request self path now P)
  = String.append
      (String.append (Urllib.urlencode P)
         (String.append "&timestamp=" (Text.str_int now)))
      (String.append "&signature="
         (HMAC.hexdigest (Text.encode (api_secret self))
            (Text.encode
               (String.append (Urllib.urlencode P)
                  (String.append "&timestamp=" (Text.str_int now)))))).
Proof.
  intros Hne Hts Hsig Hnone.
  unfold wire_request; cbn [rq_query].
  rewrite (signed_params_fresh self now P Hts Hsig).
  rewrite encode_params_no_None.
  2:{ unfold no_None in *. apply Forall_app. split; [exact Hnone |].
      repeat constructor; discriminate. }
  replace (P ++ [("timestamp", VInt now);
                 ("signature",
                  VStr (_sign_request self (P ++ [("timestamp", VInt now)])))])
    with ((P ++ [("timestamp", VInt now)])
          ++ [("signature",
               VStr (_sign_request self (P ++ [("timestamp", VInt now)])))])
    by (by rewrite <- app_assoc).
  rewrite urlencode_signature; [| destruct P; discriminate | apply hex_lower].
  rewrite sign_request_text, urlencode_timestamp by exact Hne.
  reflexivity.
Qed.

(** The encodings of the three mappings the client builds. *)
Lemma urlencode_leverage_params (sym : string) (lev : Z) :
  Urllib.urlencode [("symbol", VStr sym); ("leverage", VInt lev)]
  = "symbol=" +:+ query_escape_text sym +:+ "&leverage=" +:+ Text.str_int lev.
Proof.
  rewrite urlencode_concat. cbn [List.map String.concat].
  rewrite pair_text_int by reflexivity.
  unfold pair_text; cbn [fst snd str].
  rewrite (quote_plus_all_safe "symbol") by reflexivity.
  rewrite quote_plus_escape, !append_assoc. reflexivity.
Qed.

Lemma urlencode_market_params (sym sd : string) (q : pynum) :
  Urllib.urlencode (market_params sym sd q)
  = "symbol=" +:+ query_escape_text sym
    +:+ "&side=" +:+ query_escape_text sd
    +:+ "&type=MARKET&quantity=" +:+ query_escape_text (str (of_num q)).
Proof.
  unfold market_params.
  rewrite urlencode_concat. cbn [List.map String.concat].
  unfold pair_text; cbn [fst snd str].
  rewrite (quote_plus_all_safe "symbol"), (quote_plus_all_safe "side"),
    (quote_plus_all_safe "type"), (quote_plus_all_safe "MARKET"),
    (quote_plus_all_safe "quantity") by reflexivity.
  rewrite !quote_plus_escape, !append_assoc. reflexivity.
Qed.

Lemma urlencode_limit_params (sym sd : string) (q : pynum) (p : option pynum) :
  Urllib.urlencode (limit_params sym sd q p)
  = "symbol=" +:+ query_escape_text sym
    +:+ "&side=" +:+ query_escape_text sd
    +:+ "&type=LIMIT&timeInForce=GTC&quantity="
    +:+ query_escape_text (str (of_num q))
    +:+ "&price=" +:+ query_escape_text (str (of_opt_num p)).
Proof.
  unfold limit_params.
  rewrite urlencode_concat. cbn [List.map String.concat].
  unfold pair_text; cbn [fst snd str].
  rewrite (quote_plus_all_safe "symbol"), (quote_plus_all_safe "side"),
    (quote_plus_all_safe "type"), (quote_plus_all_safe "LIMIT"),
    (quote_plus_all_safe "timeInForce"), (quote_plus_all_safe "GTC"),
    (quote_plus_all_safe "quantity"), (quote_plus_all_safe "price")
    by reflexivity.
  rewrite !quote_plus_escape, !append_assoc. reflexivity.
Qed.

Lemma of_num_not_None (q : pynum) : of_num q <> VNone.
Proof. destruct q; discriminate. Qed.

Lemma market_params_no_None (sym sd : string) (q : pynum) :
  no_None (market_params sym sd q).
Proof.
  repeat constructor; try discriminate. apply of_num_not_None.
Qed.

Lemma limit_params_no_None (sym sd : string) (q p : pynum) :
  no_None (limit_params sym sd q (Some p)).
Proof.
  repeat constructor; try discriminate; apply of_num_not_None.
Qed.

End WireText.

Section WireLayout.

(** X8: the layout of a request on the wire.  For a caller's mapping that
    is not empty, has no [timestamp] or [signature] key and no [None]
    value, the transmitted mapping is the caller's entries in their order,
    then [timestamp], then [signature]; the query is the caller's encoding,
    then [&timestamp=] and the decimal milliseconds, then [&signature=]
    and the digest of everything before it. *)
Theorem post_request_query_layout
    (self : BinanceFuturesClient) (path : string) (l : loc) (P : Dict.t)
    (w : world) :
  heap w !! l = Some P ->
  P <> [] ->
  Dict.get "timestamp" P = None ->
  Dict.get "signature" P = None ->
  no_None P ->
  exists rq,
    sent (snd (_post_request self path l w)) = sent w ++ [rq]
    /\ rq_url rq = BASE_URL +:+ path
    /\ List.map fst (rq_params rq) = List.map fst P ++ ["timestamp"; "signature"]
    /\ firstn (length P) (rq_params rq) = P
    /\ rq_query rq
       = (Urllib.urlencode P +:+ "&timestamp=" +:+ Text.str_int (clock w (reads w)))
         +:+ "&signature="
         +:+ HMAC.hexdigest (Text.encode (api_secret self))
               (Text.encode
                  (Urllib.urlencode P +:+ "&timestamp="
                   +:+ Text.str_int (clock w (reads w)))).
Proof.
  intros HP Hne Hts Hsig Hnone.
  exists (wire_request self path (clock w (reads w)) P).
  rewrite (post_request_run self path l P w HP).
  split; [reflexivity |]. split; [reflexivity |].
  rewrite (wire_query_fresh self path _ P Hne Hts Hsig Hnone).
  unfold wire_request; cbn [rq_params].
  rewrite (signed_params_fresh self _ P Hts Hsig).
  split; [by rewrite map_app |].
  split; [| reflexivity].
  by rewrite firstn_app, Nat.sub_diag, firstn_all, app_nil_r.
Qed.

Lemma post_request_query_layout_witness :
  exists rq,
    sent (snd (_post_request Sample.client "/fapi/v1/leverage" 0
                 (Sample.world_answering [leverage_params "BTCUSDT"]
                    (Failed Timeout))))
    = [] ++ [rq]
    /\ List.map fst (rq_params rq)
       = ["symbol"; "leverage"] ++ ["timestamp"; "signature"].
Proof.
  destruct (post_request_query_layout Sample.client "/fapi/v1/leverage" 0
              (leverage_params "BTCUSDT")
              (Sample.world_answering [leverage_params "BTCUSDT"] (Failed Timeout)))
    as (rq & H1 & _ & H2 & _).
  - reflexivity.
  - discriminate.
  - reflexivity.
  - reflexivity.
  - repeat constructor; discriminate.
  - exists rq. split; assumption.
Defined.

Lemma submit_run_gen (self : BinanceFuturesClient) (path : string)
    (P : Dict.t) (w : world) :
  fst ((params <- new_dict P ;; _post_request self path params) w)
  = post_outcome (server w (length (sent w))
                    (wire_request self path (clock w (reads w)) P))
  /\ sent (snd ((params <- new_dict P ;; _post_request self path params) w))
     = sent w ++ [wire_request self path (clock w (reads w)) P].
Proof. rewrite submit_run. split; reflexivity. Qed.

(** X9: [set_leverage] on the wire.  It sends one POST to the leverage
    endpoint whose query is [symbol=], the escaped symbol, [&leverage=],
    the multiplier in decimal, then the timestamp and the signature of the
    text before it; its result is the transport's, a failure included. *)
Theorem set_leverage_on_the_wire
    (self : BinanceFuturesClient) (sym : string) (lev : Z) (w : world) :
  exists rq,
    sent (snd (set_leverage self sym lev w)) = sent w ++ [rq]
    /\ fst (set_leverage self sym lev w)
       = post_outcome (server w (length (sent w)) rq)
    /\ rq_method rq = "POST"
    /\ rq_url rq = "https://testnet.binancefuture.com/fapi/v1/leverage"
    /\ rq_headers rq = [("X-MBX-APIKEY", api_key self)]
    /\ rq_query rq
       = ("symbol=" +:+ query_escape_text sym
          +:+ "&leverage=" +:+ Text.str_int lev
          +:+ "&timestamp=" +:+ Text.str_int (clock w (reads w)))
         +:+ "&signature="
         +:+ HMAC.hexdigest (Text.encode (api_secret self))
               (Text.encode
                  ("symbol=" +:+ query_escape_text sym
                   +:+ "&leverage=" +:+ Text.str_int lev
                   +:+ "&timestamp=" +:+ Text.str_int (clock w (reads w)))).
Proof.
  exists (wire_request self "/fapi/v1/leverage" (clock w (reads w))
            [("symbol", VStr sym); ("leverage", VInt lev)]).
  unfold set_leverage.
  destruct (submit_run_gen self "/fapi/v1/leverage"
              [("symbol", VStr sym); ("leverage", VInt lev)] w) as [-> ->].
  repeat split.
  rewrite wire_query_fresh;
    [| discriminate | reflexivity | reflexivity
     | repeat constructor; discriminate].
  rewrite urlencode_leverage_params, !append_assoc. reflexivity.
Qed.

(** X10: a market order on the wire.  After the leverage request,
    [place_market_order] sends one POST to the order endpoint with the
    query [symbol], [side], [type=MARKET], [quantity], [timestamp] (the
    second reading of the clock) and the signature of the text before it;
    symbol, side and quantity are escaped. *)
Theorem place_market_order_on_the_wire
    (self : BinanceFuturesClient) (sym sd : string) (q : pynum) (w : world) :
  exists rq_lev rq,
    sent (snd (place_market_order self sym sd q w)) = sent w ++ [rq_lev; rq]
    /\ fst (place_market_order self sym sd q w)
       = post_outcome (server w (S (length (sent w))) rq)
    /\ rq_url rq = "https://testnet.binancefuture.com/fapi/v1/order"
    /\ rq_query rq
       = ("symbol=" +:+ query_escape_text sym
          +:+ "&side=" +:+ query_escape_text sd
          +:+ "&type=MARKET&quantity=" +:+ query_escape_text (str (of_num q))
          +:+ "&timestamp=" +:+ Text.str_int (clock w (S (reads w))))
         +:+ "&signature="
         +:+ HMAC.hexdigest (Text.encode (api_secret self))
               (Text.encode
                  ("symbol=" +:+ query_escape_text sym
                   +:+ "&side=" +:+ query_escape_text sd
                   +:+ "&type=MARKET&quantity="
                   +:+ query_escape_text (str (of_num q))
                   +:+ "&timestamp=" +:+ Text.str_int (clock w (S (reads w))))).
Proof.
  exists (wire_request self "/fapi/v1/leverage" (clock w (reads w))
            (leverage_params sym)),
         (wire_request self "/fapi/v1/order" (clock w (S (reads w)))
            (market_params sym sd q)).
  rewrite place_market_order_run. cbn [fst snd].
  destruct (order_after_bootstrap self sym (market_params sym sd q) w)
    as [-> ->].
  repeat split.
  rewrite wire_query_fresh;
    [| discriminate | reflexivity | reflexivity | apply market_params_no_None].
  rewrite urlencode_market_params, !append_assoc. reflexivity.
Qed.

(** X11: a limit order with its price on the wire: as for a market order,
    with [type=LIMIT], [timeInForce=GTC] and the price after the
    quantity. *)
Theorem place_limit_order_on_the_wire
    (self : BinanceFuturesClient) (sym sd : string) (q p : pynum) (w : world) :
  exists rq_lev rq,
    sent (snd (place_limit_order self sym sd q (Some p) w))
    = sent w ++ [rq_lev; rq]
    /\ fst (place_limit_order self sym sd q (Some p) w)
       = post_outcome (server w (S (length (sent w))) rq)
    /\ rq_url rq = "https://testnet.binancefuture.com/fapi/v1/order"
    /\ rq_query rq
       = ("symbol=" +:+ query_escape_text sym
          +:+ "&side=" +:+ query_escape_text sd
          +:+ "&type=LIMIT&timeInForce=GTC&quantity="
          +:+ query_escape_text (str (of_num q))
          +:+ "&price=" +:+ query_escape_text (str (of_num p))
          +:+ "&timestamp=" +:+ Text.str_int (clock w (S (reads w))))
         +:+ "&signature="
         +:+ HMAC.hexdigest (Text.encode (api_secret self))
               (Text.encode
                  ("symbol=" +:+ query_escape_text sym
                   +:+ "&side=" +:+ query_escape_text sd
                   +:+ "&type=LIMIT&timeInForce=GTC&quantity="
                   +:+ query_escape_text (str (of_num q))
                   +:+ "&price=" +:+ query_escape_text (str (of_num p))
                   +:+ "&timestamp=" +:+ Text.str_int (clock w (S (reads w))))).
Proof.
  exists (wire_request self "/fapi/v1/leverage" (clock w (reads w))
            (leverage_params sym)),
         (wire_request self "/fapi/v1/order" (clock w (S (reads w)))
            (limit_params sym sd q (Some p))).
  rewrite place_limit_order_run. cbn [fst snd].
  destruct (order_after_bootstrap self sym (limit_params sym sd q (Some p)) w)
    as [-> ->].
  repeat split.
  rewrite wire_query_fresh;
    [| discriminate | reflexivity | reflexivity | apply limit_params_no_None].
  rewrite urlencode_limit_params, !append_assoc. reflexivity.
Qed.

(** X12: a limit order without a price on the wire.  The text that is
    signed holds [price=None]; the query that is transmitted has no price
    at all, and carries the digest of the text with it. *)
Theorem place_limit_order_without_price_on_the_wire
    (self : BinanceFuturesClient) (sym sd : string) (q : pynum) (w : world) :
  exists rq_lev rq,
    sent (snd (place_limit_order self sym sd q None w)) = sent w ++ [rq_lev; rq]
    /\ rq_query rq
       = ("symbol=" +:+ query_escape_text sym
          +:+ "&side=" +:+ query_escape_text sd
          +:+ "&type=LIMIT&timeInForce=GTC&quantity="
          +:+ query_escape_text (str (of_num q))
          +:+ "&timestamp=" +:+ Text.str_int (clock w (S (reads w))))
         +:+ "&signature="
         +:+ HMAC.hexdigest (Text.encode (api_secret self))
               (Text.encode
                  ("symbol=" +:+ query_escape_text sym
                   +:+ "&side=" +:+ query_escape_text sd
                   +:+ "&type=LIMIT&timeInForce=GTC&quantity="
                   +:+ query_escape_text (str (of_num q))
                   +:+ "&price=None"
                   +:+ "&timestamp=" +:+ Text.str_int (clock w (S (reads w))))).
Proof.
  exists (wire_request self "/fapi/v1/leverage" (clock w (reads w))
            (leverage_params sym)),
         (wire_request self "/fapi/v1/order" (clock w (S (reads w)))
            (limit_params sym sd q None)).
  rewrite place_limit_order_run. cbn [fst snd].
  destruct (order_after_bootstrap self sym (limit_params sym sd q None) w)
    as [-> _].
  split; [reflexivity |].
  unfold wire_request; cbn [rq_query].
  rewrite signed_params_fresh by reflexivity.
  rewrite sign_request_text, urlencode_timestamp by discriminate.
  rewrite urlencode_limit_params.
  change (query_escape_text (str (of_opt_num None))) with "None".
  rewrite !append_assoc.
  change ("&price=" +:+ "None" +:+ "&timestamp="
          +:+ Text.str_int (clock w (S (reads w))))
    with ("&price=None" +:+ "&timestamp="
          +:+ Text.str_int (clock w (S (reads w)))).
  set (sig := HMAC.hexdigest _ _).
  replace (encode_params
             (limit_params sym sd q None
              ++ [("timestamp", VInt (clock w (S (reads w))));
                  ("signature", VStr sig)]))
    with (Urllib.urlencode
            (([("symbol", VStr sym); ("side", VStr sd); ("type", VStr "LIMIT");
               ("timeInForce", VStr "GTC"); ("quantity", of_num q)]
              ++ [("timestamp", VInt (clock w (S (reads w))))])
             ++ [("signature", VStr sig)])).
  2:{ unfold encode_params, limit_params. simpl. destruct q; reflexivity. }
  rewrite urlencode_signature; [| discriminate | apply hex_lower].
  rewrite urlencode_timestamp by discriminate.
  rewrite urlencode_concat. cbn [List.map String.concat].
  unfold pair_text; cbn [fst snd str].
  rewrite (quote_plus_all_safe "symbol"), (quote_plus_all_safe "side"),
    (quote_plus_all_safe "type"), (quote_plus_all_safe "LIMIT"),
    (quote_plus_all_safe "timeInForce"), (quote_plus_all_safe "GTC"),
    (quote_plus_all_safe "quantity") by reflexivity.
  rewrite !quote_plus_escape, !append_assoc. reflexivity.
Qed.

End WireLayout.

(* ===================================================================== *)
(** * Reading the query back *)
(* ===================================================================== *)

Section ReadBack.

Lemma has_char_append (a : ascii) (s t : string) :
  Text.has_char a (s +:+ t) = Text.has_char a s || Text.has_char a t.
Proof.
  induction s as [| c s IH]; [reflexivity |].
  rewrite append_cons. simpl. rewrite IH. by rewrite orb_assoc.
Qed.

Lemma query_escape_no_separator (b : byte) :
  Text.has_char "&" (query_escape b) = false
  /\ Text.has_char "=" (query_escape b) = false.
Proof. destruct b; split; reflexivity. Qed.

(** An escaped text holds neither [&] nor [=]. *)
Lemma query_escape_text_no_separator (s : string) :
  Text.has_char "&" (query_escape_text s) = false
  /\ Text.has_char "=" (query_escape_text s) = false.
Proof.
  unfold query_escape_text.
  induction (Text.encode s) as [| b bs [IH1 IH2]]; [split; reflexivity |].
  simpl List.map. rewrite concat_nosep_cons, !has_char_append, IH1, IH2.
  destruct (query_escape_no_separator b) as [-> ->]. split; reflexivity.
Qed.

Lemma unquote_plus_escape_char (c : ascii) (rest : string) :
  unquote_plus (query_escape (byte_of_ascii c) +:+ rest)
  = String c (unquote_plus rest).
Proof. destruct c as [[] [] [] [] [] [] [] []]; reflexivity. Qed.

Lemma unquote_plus_escape_text (s : string) :
  unquote_plus (query_escape_text s) = s.
Proof.
  induction s as [| c s IH]; [reflexivity |].
  unfold query_escape_text in *. rewrite encode_cons. simpl List.map.
  rewrite concat_nosep_cons, unquote_plus_escape_char, IH. reflexivity.
Qed.

Lemma cut_at_append (sep : ascii) (a b : string) :
  Text.has_char sep a = false ->
  cut_at sep (a +:+ String sep b) = (a, b).
Proof.
  induction a as [| c a IH]; intros H.
  - simpl. by rewrite Ascii.eqb_refl.
  - simpl in H. apply orb_false_iff in H as [Hc Ha].
    rewrite append_cons. simpl. rewrite Hc, (IH Ha). reflexivity.
Qed.

Lemma split_char_whole (sep : ascii) (x : string) :
  Text.has_char sep x = false -> split_char sep x = [x].
Proof.
  induction x as [| c x IH]; intros H; [reflexivity |].
  simpl in H. apply orb_false_iff in H as [Hc Hx].
  simpl. by rewrite Hc, (IH Hx).
Qed.

Lemma split_char_append (sep : ascii) (x rest : string) :
  Text.has_char sep x = false ->
  split_char sep (x +:+ String sep rest) = x :: split_char sep rest.
Proof.
  induction x as [| c x IH]; intros H.
  - simpl. by rewrite Ascii.eqb_refl.
  - simpl in H. apply orb_false_iff in H as [Hc Hx].
    rewrite append_cons. simpl. by rewrite Hc, (IH Hx).
Qed.

(** The text of one entry, in escaped form, and what it holds. *)
Lemma pair_text_escape (kv : string * pyval) :
  pair_text kv
  = query_escape_text (fst kv) +:+ String "=" (query_escape_text (str (snd kv))).
Proof. unfold pair_text. by rewrite !quote_plus_escape. Qed.

Lemma pair_text_no_amp (kv : string * pyval) :
  Text.has_char "&" (pair_text kv) = false.
Proof.
  rewrite pair_text_escape, has_char_append. simpl.
  destruct (query_escape_text_no_separator (fst kv)) as [-> _].
  destruct (query_escape_text_no_separator (str (snd kv))) as [-> _].
  reflexivity.
Qed.

Lemma pair_text_read (kv : string * pyval) :
  (unquote_plus (fst (cut_at "=" (pair_text kv))),
   unquote_plus (snd (cut_at "=" (pair_text kv))))
  = (fst kv, str (snd kv)).
Proof.
  rewrite pair_text_escape, cut_at_append
    by apply query_escape_text_no_separator.
  cbn [fst snd]. by rewrite !unquote_plus_escape_text.
Qed.

Lemma pair_text_not_empty (kv : string * pyval) (rest : string) :
  pair_text kv +:+ rest <> EmptyString.
Proof.
  intros H. apply (f_equal (Text.has_char "=")) in H.
  rewrite pair_text_escape, !has_char_append in H. simpl in H.
  rewrite orb_true_r in H. discriminate H.
Qed.

Lemma split_items (P : Dict.t) :
  P <> [] ->
  split_char "&" (String.concat "&" (List.map pair_text P))
  = List.map pair_text P.
Proof.
  induction P as [| kv P IH]; [done |]. intros _.
  destruct P as [| kv' P].
  - simpl. apply split_char_whole, pair_text_no_amp.
  - change (String.concat "&" (List.map pair_text (kv :: kv' :: P)))
      with (pair_text kv
            +:+ String "&" (String.concat "&" (List.map pair_text (kv' :: P)))).
    rewrite split_char_append by apply pair_text_no_amp.
    rewrite IH by discriminate. reflexivity.
Qed.

Lemma read_query_urlencode (P : Dict.t) :
  read_query (Urllib.urlencode P) = printed P.
Proof.
  rewrite urlencode_concat.
  destruct P as [| kv P]; [reflexivity |].
  unfold read_query.
  destruct (String.concat "&" (List.map pair_text (kv :: P))) eqn:E.
  - exfalso. destruct P as [| kv' P].
    + simpl in E. apply (pair_text_not_empty kv ""). by rewrite append_nil_r.
    + change (String.concat "&" (List.map pair_text (kv :: kv' :: P)))
        with (pair_text kv
              +:+ String "&" (String.concat "&" (List.map pair_text (kv' :: P))))
        in E.
      by apply pair_text_not_empty in E.
  - rewrite <- E, split_items by discriminate.
    unfold printed. rewrite map_map.
    apply map_ext. intros kv0. apply pair_text_read.
Qed.

Lemma urlencode_printed (P Q : Dict.t) :
  printed P = printed Q -> Urllib.urlencode P = Urllib.urlencode Q.
Proof.
  intros H. rewrite !urlencode_concat. f_equal.
  assert (Hm : forall R : Dict.t,
             List.map pair_text R
             = List.map (fun ks => Urllib.quote_plus (fst ks)
                                   +:+ "=" +:+ Urllib.quote_plus (snd ks))
                 (printed R)).
  { intros R. unfold printed. rewrite map_map. reflexivity. }
  by rewrite !Hm, H.
Qed.

(** X13: the signed text can be read back.  Splitting the text
    [_sign_request] digests at [&], cutting each item at its first [=] and
    undoing the escaping gives the keys of the mapping with the printed
    values, in order.  So two mappings have the same signed text exactly
    when they have the same keys and printed values in the same order, and
    the text has one item per entry: no key or value passes for a
    separator. *)
Theorem signed_text_reads_back (P : Dict.t) :
  read_query (Urllib.urlencode P) = printed P
  /\ (forall Q, Urllib.urlencode P = Urllib.urlencode Q <-> printed P = printed Q)
  /\ (forall self Q, printed P = printed Q ->
                     _sign_request self P = _sign_request self Q)
  /\ length (split_char "&" (Urllib.urlencode P)) = Nat.max 1 (length P).
Proof.
  split; [apply read_query_urlencode |]. split; [| split].
  - intros Q. split.
    + intros H.
      rewrite <- (read_query_urlencode P), <- (read_query_urlencode Q).
      by rewrite H.
    + apply urlencode_printed.
  - intros self Q H. unfold _sign_request.
    by rewrite (urlencode_printed P Q H).
  - rewrite urlencode_concat. destruct P as [| kv P]; [reflexivity |].
    rewrite split_items by discriminate. rewrite length_map. simpl. lia.
Qed.

(** X14: what the remote side reads from a request of [_post_request]:
    the keys and printed values of the transmitted mapping, those whose
    value is [None] left out. *)
Theorem post_request_query_reads_back
    (self : BinanceFuturesClient) (path : string) (l : loc) (P : Dict.t)
    (w : world) :
  heap w !! l = Some P ->
  exists rq,
    sent (snd (_post_request self path l w)) = sent w ++ [rq]
    /\ read_query (rq_query rq)
       = printed (List.filter
                    (fun kv => match snd kv with VNone => false | _ => true end)
                    (rq_params rq))
    /\ (no_None P -> read_query (rq_query rq) = printed (rq_params rq)).
Proof.
  intros HP.
  exists (wire_request self path (clock w (reads w)) P).
  rewrite (post_request_run self path l P w HP).
  split; [reflexivity |].
  unfold wire_request; cbn [rq_query rq_params].
  split.
  - unfold encode_params. apply read_query_urlencode.
  - intros Hnone. rewrite encode_params_no_None.
    + apply read_query_urlencode.
    + unfold signed_params, stamped.
      apply no_None_set; [discriminate |].
      apply no_None_set; [discriminate | exact Hnone].
Qed.

Lemma post_request_query_reads_back_witness :
  exists rq,
    sent (snd (_post_request Sample.client "/fapi/v1/order" 0
                 (Sample.world_answering
                    [limit_params "ETHUSDT" "SELL" (NInt 2) None]
                    (Failed Timeout))))
    = [] ++ [rq]
    /\ read_query (rq_query rq)
       = printed (List.filter
                    (fun kv => match snd kv with VNone => false | _ => true end)
                    (rq_params rq)).
Proof.
  destruct (post_request_query_reads_back Sample.client "/fapi/v1/order" 0
              (limit_params "ETHUSDT" "SELL" (NInt 2) None)
              (Sample.world_answering
                 [limit_params "ETHUSDT" "SELL" (NInt 2) None] (Failed Timeout))
              eq_refl) as (rq & H1 & H2 & _).
  exists rq. split; assumption.
Defined.

End ReadBack.

(* ===================================================================== *)
(** * The command line: [main] *)
(* ===================================================================== *)

Section CommandLine.

(** The round trip of a request built from a mapping without [signature]
    key and without [None] value. *)
Lemma wire_request_round_trips (self : BinanceFuturesClient) (path : string)
    (now : Z) (P : Dict.t) :
  Dict.get "signature" P = None ->
  no_None P ->
  round_trips self (wire_request self path now P).
Proof.
  intros Hsig Hnone.
  unfold round_trips, wire_request, signed_params; cbn [rq_query rq_params].
  assert (HS : Dict.get "signature" (stamped now P) = None).
  { unfold stamped. by rewrite get_set_ne. }
  split.
  - apply encode_params_no_None.
    apply no_None_set; [discriminate |].
    unfold stamped. apply no_None_set; [discriminate | exact Hnone].
  - rewrite set_absent by exact HS. rewrite remove_snoc by exact HS.
    rewrite <- (set_absent _ _ _ HS). apply get_set_eq.
Qed.

(** The mapping of an order that passed validation has no [None]. *)
Lemma validated_order_params (args : order_arguments) :
  validate_common args = Return tt ->
  (type args = "MARKET" ->
   no_None (market_params (symbol args) (side args) (quantity args)))
  /\ (type args = "LIMIT" ->
      no_None (limit_params (symbol args) (side args) (quantity args)
                 (price args))).
Proof.
  intros Hv. split; intros Ht.
  - apply market_params_no_None.
  - apply validate_common_ok_iff in Hv.
    destruct (price args) as [p |] eqn:Hp.
    + apply limit_params_no_None.
    + destruct Hv. right; right. by split.
Qed.

(** X15: on the path the command line takes, the signature verifies.
    For arguments that [validate_common] accepts and whose type is MARKET
    or LIMIT, [create] sends the leverage request and the order request,
    and for both the query transmitted is the signer's encoding of the
    transmitted mapping and the transmitted signature is the signature of
    the other transmitted parameters. *)
Theorem validated_order_round_trips
    (self : OrderService) (args : order_arguments) (w : world) :
  validate_common args = Return tt ->
  type args = "MARKET" \/ type args = "LIMIT" ->
  exists rq_lev rq,
    sent (snd (create self args w)) = sent w ++ [rq_lev; rq]
    /\ rq_url rq_lev = "https://testnet.binancefuture.com/fapi/v1/leverage"
    /\ rq_url rq = "https://testnet.binancefuture.com/fapi/v1/order"
    /\ round_trips (binance_client self) rq_lev
    /\ round_trips (binance_client self) rq
    /\ fst (create self args w)
       = post_outcome (server w (S (length (sent w))) rq).
Proof.
  intros Hv Ht.
  destruct (validated_order_params args Hv) as [Hm Hl].
  assert (Hlev : round_trips (binance_client self)
                   (wire_request (binance_client self) "/fapi/v1/leverage"
                      (clock w (reads w)) (leverage_params (symbol args)))).
  { apply wire_request_round_trips; [reflexivity |].
    repeat constructor; discriminate. }
  destruct (create_run self args w)
    as [[Ht' ->] | [[Ht' ->] | (H1 & H2 & _)]]; cbn [fst snd].
  - destruct (order_after_bootstrap (binance_client self) (symbol args)
                (market_params (symbol args) (side args) (quantity args)) w)
      as [-> ->].
    eexists _, _. split; [reflexivity |].
    repeat split; try apply Hlev;
      apply wire_request_round_trips; auto.
  - destruct (order_after_bootstrap (binance_client self) (symbol args)
                (limit_params (symbol args) (side args) (quantity args)
                   (price args)) w)
      as [-> ->].
    eexists _, _. split; [reflexivity |].
    repeat split; try apply Hlev;
      apply wire_request_round_trips; auto.
  - destruct Ht; contradiction.
Qed.

Lemma validated_order_round_trips_witness :
  exists rq_lev rq,
    sent (snd (create Sample.service
                 (OrderArguments "ETHUSDT" "SELL" "LIMIT" (NInt 2)
                    (Some (NFloat Sample.f_3000)))
                 (Sample.world_first_failing (Responded Sample.margin_response))))
    = [] ++ [rq_lev; rq]
    /\ round_trips Sample.client rq.
Proof.
  destruct (validated_order_round_trips Sample.service
              (OrderArguments "ETHUSDT" "SELL" "LIMIT" (NInt 2)
                 (Some (NFloat Sample.f_3000)))
              (Sample.world_first_failing (Responded Sample.margin_response))
              eq_refl (or_intror eq_refl))
    as (rq_lev & rq & H1 & _ & _ & _ & H2 & _).
  exists rq_lev, rq. split; assumption.
Defined.

Lemma truthy_Some (v : option string) :
  truthy v = true -> v = Some (default "" v) /\ default "" v <> "".
Proof. destruct v as [[| c s] |]; simpl; intros H; try discriminate; done. Qed.




End CommandLine.

(* ===================================================================== *)
(** * Worked examples *)
(* ===================================================================== *)

Section Examples.

Example sha256_constants :
  length SHA256.K = 64%nat
  /\ List.firstn 2 SHA256.K = [0x428a2f98; 0x71374491]
  /\ List.last SHA256.K 0 = 0xc67178f2
  /\ List.firstn 2 SHA256.H0 = [0x6a09e667; 0xbb67ae85]
  /\ List.last SHA256.H0 0 = 0x5be0cd19.
Proof. repeat split. Qed.

Example sha256_abc :
  HMAC.hex (SHA256.digest (Text.encode "abc"))
  = "ba7816bf8f01cfea414140de5dae2223b00361a396177a9cb410ff61f20015ad".
Proof. vm_compute. reflexivity. Qed.

Example sha256_empty :
  HMAC.hex (SHA256.digest [])
  = "e3b0c44298fc1c149afbf4c8996fb92427ae41e4649b934ca495991b7852b855".
Proof. vm_compute. reflexivity. Qed.

(** The signed-endpoint example of the exchange's API documentation. *)
Example hmac_documentation_vector :
  _sign_request
    (init_client "vmPUZE6mv9SD5VNHk4HlWFsOr6aKE2zvsw0MuIgwCIPy6utIco14y7Ju91duEh8A"
       "NhqPtmdSJYdKjVHjA7PZj4Mge3R5YNiP1e3UZjInClVN65XAbvqqM6A7H5fATj0j" None)
    [("symbol", VStr "LTCBTC"); ("side", VStr "BUY"); ("type", VStr "LIMIT");
     ("timeInForce", VStr "GTC"); ("quantity", VInt 1);
     ("price", VFloat (PyFloat (S754_finite false 7205759403792794 (-56)) "0.1"));
     ("recvWindow", VInt 5000); ("timestamp", VInt 1499827319559)]
  = "c8db56825ae71d6d79447849e617115f4a920fa2acdcab2b053c4b2838bd6b71".
Proof. vm_compute. reflexivity. Qed.

Example urlencode_sample :
  Urllib.urlencode
    [("a b", VStr "x&y=z~/"); ("n", VInt 5); ("m", VInt (-12)); ("p", VNone);
     ("f", VFloat Sample.f_0_01)]
  = "a+b=x%26y%3Dz~%2F&n=5&m=-12&p=None&f=0.01".
Proof. vm_compute. reflexivity. Qed.

(** A limit order on the wire: the leverage call fails with the margin
    error, the order goes out all the same with [timeInForce=GTC]. *)
Example limit_order_on_the_wire :
  List.map rq_query
    (sent (snd (create Sample.service
                  (OrderArguments "ETHUSDT" "SELL" "LIMIT" (NInt 2)
                     (Some (NFloat Sample.f_3000)))
                  (Sample.world_first_failing (Responded Sample.margin_response)))))
  = ["symbol=ETHUSDT&leverage=10&timestamp=1700000000000&signature=ada6ebd275a2392c47bfe7650653f90d80c790d5291e8401a0db1ae2984d3895";
     "symbol=ETHUSDT&side=SELL&type=LIMIT&timeInForce=GTC&quantity=2&price=3000.0&timestamp=1700000000001&signature=164bc439518a1eff7bc9fddf0100bb1f4f9beaab1a5421e5058f69d5e405aa19"].
Proof. vm_compute. reflexivity. Qed.

(** A NaN quantity is not [<= 0], so it passes validation. *)
Example nan_quantity_passes_validation :
  validate_common
    (OrderArguments "BTCUSDT" "BUY" "MARKET" (NFloat Sample.f_nan) None)
  = Return tt
  /\ num_gt0 (NFloat Sample.f_nan) = false.
Proof. split; reflexivity. Qed.

(** A timeout is logged and re-raised; the call made one attempt. *)
Example timeout_after_one_attempt :
  fst (_post_request Sample.client "/fapi/v1/order" 0
         (Sample.world_answering [market_params "BTCUSDT" "BUY" (NInt 1)]
            (Failed Timeout)))
  = Raise (RequestFailure Timeout)
  /\ network_attempts
       (Sample.world_answering [market_params "BTCUSDT" "BUY" (NInt 1)]
          (Failed Timeout)) 0
       (wire_request Sample.client "/fapi/v1/order" 1700000000000
          (market_params "BTCUSDT" "BUY" (NInt 1)))
     = 1%nat.
Proof. split; vm_compute; reflexivity. Qed.

(** A success status with a body that is no JSON raises the decoding
    error, which is a [ValueError]. *)
Example undecodable_body_raises :
  fst (_post_request Sample.client "/fapi/v1/order" 0
         (Sample.world_answering [market_params "BTCUSDT" "BUY" (NInt 1)]
            (Responded Sample.garbled_response)))
  = Raise (JSONDecodeError Sample.garbled_response)
  /\ is_ValueError (JSONDecodeError Sample.garbled_response) = true.
Proof. split; vm_compute; reflexivity. Qed.

(** Header values: a leading space or tab, a no-break space, or a line
    break inside the value are refused; an empty value and a value ended by
    one line feed pass. *)
Example header_values :
  List.map valid_header_value
    ["KEY"; ""; " KEY"; String (ascii_of_nat 9) "KEY";
     String (ascii_of_nat 194) (String (ascii_of_nat 160) "KEY");
     String "K" (String CR "EY"); String "K" (String LF "EY");
     String "K" (String LF ""); "KEY "]
  = [true; true; false; false; false; false; false; true; true].
Proof. vm_compute. reflexivity. Qed.

(** A key with a leading space: both calls of a market order are refused
    before anything is sent, and the order call raises [InvalidHeader]. *)
Example refused_key :
  fst (create (Service (init_client " KEY" "SECRET" None))
         (OrderArguments "BTCUSDT" "BUY" "MARKET" (NInt 1) None)
         (Sample.world_answering [] (Responded Sample.ok_response)))
  = Raise (RequestFailure InvalidHeader)
  /\ network_attempts
       (Sample.world_answering [] (Responded Sample.ok_response)) 1
       (wire_request (init_client " KEY" "SECRET" None) "/fapi/v1/order"
          1700000000001 (market_params "BTCUSDT" "BUY" (NInt 1)))
     = O.
Proof. split; vm_compute; reflexivity. Qed.

(** A timeout of 0 is refused with a [ValueError]. *)
Example refused_timeout :
  fst (_post_request (init_client "KEY" "SECRET" (Some 0)) "/fapi/v1/order" 0
         (Sample.world_answering [market_params "BTCUSDT" "BUY" (NInt 1)]
            (Responded Sample.ok_response)))
  = Raise (RequestFailure InvalidTimeout)
  /\ is_ValueError (RequestFailure InvalidTimeout) = true.
Proof. split; vm_compute; reflexivity. Qed.

(** A redirect is followed: the call returns the second answer after two
    attempts.  A network that redirects for ever ends the call with
    [TooManyRedirects] after 31 attempts. *)
Example redirects_followed :
  fst (_post_request Sample.client "/fapi/v1/leverage" 0
         (Sample.world_redirecting [leverage_params "BTCUSDT"]))
  = Return (JObj [])
  /\ network_attempts (Sample.world_redirecting [leverage_params "BTCUSDT"]) 0
       (wire_request Sample.client "/fapi/v1/leverage" 1700000000000
          (leverage_params "BTCUSDT"))
     = 2%nat
  /\ session_request (fun _ _ => Responded Sample.moved_response)
       (wire_request Sample.client "/fapi/v1/leverage" 1700000000000
          (leverage_params "BTCUSDT"))
     = (Failed TooManyRedirects, 31%nat).
Proof. repeat split; vm_compute; reflexivity. Qed.

(** Reading a query back: the escaped separators stay inside the value. *)
Example read_query_sample :
  read_query "a+b=x%26y%3Dz~%2F&n=5&m=-12&p=None&f=0.01"
  = [("a b", "x&y=z~/"); ("n", "5"); ("m", "-12"); ("p", "None"); ("f", "0.01")].
Proof. vm_compute. reflexivity. Qed.

(** [main] with an empty secret leaves before any request. *)
Example main_without_secret :
  main (Parsed (OrderArguments "BTCUSDT" "BUY" "MARKET" (NInt 1) None))
    (Some "KEY") (Some "")
    (Sample.world_answering [] (Failed Timeout))
  = (MainSystemExit
       (ExitMessage
          "ERROR: Set BINANCE_API_KEY and BINANCE_API_SECRET environment variables"),
     [], Sample.world_answering [] (Failed Timeout)).
Proof. reflexivity. Qed.

End Examples.
